(** * AgentProject front end: chat client, agent widget and machine card

    A shallow embedding of the React components of the repository:

    - [ChatPage]   : frontend/src/pages/ChatPage.jsx (thread handlers, the
                     NDJSON stream reader of [handleSubmit], chart rendering);
    - [AgentChat]  : the floating chat widget (second component of
                     frontend/src/components/AIReportModal.jsx);
    - [MachineCard]: frontend/src/components/MachineCard.jsx;
    - [SensorChart]: frontend/src/components/SensorChart.jsx;
    - [Auth]       : the authentication context and the routes of the
                     application (context/AuthContext.jsx, App.jsx);
    - [KnowledgeBase]: frontend/src/components/KnowledgeBaseModal.jsx.

    React state is modelled by explicit state passing: a component is a
    record of its [useState] cells, [setX(v)] is a record update and the
    functional form [setX(prev => f prev)] applies [f] to the current cell.
    Network calls are inputs of the handlers (their outcome is an argument).

    Conventions. A JavaScript string is a [string]; thread ids are strings.
    An optional property is an [option] ([None] for [undefined] or [null]).
    The bytes of a response reach the text through an abstract
    [TextDecoder], so no character encoding is fixed. The objects decoded
    from the stream carry their fields at the types of the protocol
    ([content] a string, [chart_data] an array). Cells that no handler
    modelled here writes ([showKB], [llmProvider], [sidebarCollapsed]) and
    the body of the request are left out. *)

From Stdlib Require Import String Ascii List Bool Arith QArith.
From Stdlib.Strings Require Import Byte.
From Stdlib Require Import Sorting.Sorted.
Import ListNotations.

Local Close Scope Q_scope.
Local Open Scope string_scope.
Local Open Scope list_scope.
Local Open Scope nat_scope.

(** ** JavaScript string and array helpers *)

Module Js.

(** The line feed character, ['\n']. *)
Definition LF : ascii := Ascii.ascii_of_nat 10.

(** [s.split('\n')]: the pieces of [s] between line feeds; never empty. *)
Fixpoint split (s : string) : list string :=
  match s with
  | EmptyString => [EmptyString]
  | String c r =>
      if Ascii.eqb c LF then EmptyString :: split r
      else match split r with
           | h :: t => String c h :: t
           | [] => [String c EmptyString]
           end
  end.

(** [lines.pop()] returns the last element ... *)
Definition pop_value (lines : list string) : string := last lines EmptyString.

(** ... and leaves the array without it. *)
Definition pop_rest (lines : list string) : list string := removelast lines.

(** White space removed by [String.prototype.trim], on the ASCII range:
    TAB, LF, VT, FF, CR and SPACE. (A line made of other Unicode white
    space is skipped by [trim] in the browser; here it reaches the parser,
    which rejects it as it is not JSON: the state is the same. A question
    made only of such white space is refused by the guard of
    [handleSubmit] in the browser and not here; a question that is blank
    here is blank in the browser too, so what is proved of the non-blank
    questions holds of every question that the browser submits.) *)
Definition is_white (c : ascii) : bool :=
  let n := Ascii.nat_of_ascii c in
  ((9 <=? n) && (n <=? 13)) || (n =? 32).

(** [!s.trim()]: the trimmed string is empty, that is every character of
    [s] is white space. *)
Fixpoint blank (s : string) : bool :=
  match s with
  | EmptyString => true
  | String c r => is_white c && blank r
  end.

(** [chunks.join('')]. *)
Definition join (chunks : list string) : string :=
  fold_right String.append EmptyString chunks.

(** The string ends with a line feed. *)
Fixpoint ends_with_LF (s : string) : bool :=
  match s with
  | EmptyString => false
  | String c EmptyString => Ascii.eqb c LF
  | String _ r => ends_with_LF r
  end.

(** [a[a.length - 1]], [undefined] on the empty array. *)
Definition last_elem {A} (l : list A) : option A :=
  match rev l with
  | [] => None
  | x :: _ => Some x
  end.

(** [a.slice(0, -1)]. *)
Definition slice_init {A} (l : list A) : list A := removelast l.

(** [s.trimStart()], on the white space of [is_white]. *)
Fixpoint trimStart (s : string) : string :=
  match s with
  | EmptyString => EmptyString
  | String c r => if is_white c then trimStart r else s
  end.

(** [s.trimEnd()]. *)
Fixpoint trimEnd (s : string) : string :=
  match s with
  | EmptyString => EmptyString
  | String c r =>
      match trimEnd r with
      | EmptyString => if is_white c then EmptyString else String c EmptyString
      | r' => String c r'
      end
  end.

(** [s.trim()]. *)
Definition trim (s : string) : string := trimEnd (trimStart s).

(** [s === ''], the falsy string. *)
Definition is_empty (s : string) : bool :=
  match s with
  | EmptyString => true
  | String _ _ => false
  end.

(** [s.toLowerCase()] on the letters A to Z. *)
Definition lower (c : ascii) : ascii :=
  let n := Ascii.nat_of_ascii c in
  if (65 <=? n) && (n <=? 90) then Ascii.ascii_of_nat (n + 32) else c.

Fixpoint toLowerCase (s : string) : string :=
  match s with
  | EmptyString => EmptyString
  | String c r => String (lower c) (toLowerCase r)
  end.

(** [s.includes(sub)]. *)
Definition includes (s sub : string) : bool :=
  match String.index 0 sub s with
  | Some _ => true
  | None => false
  end.

(** [a.includes(x)] on an array of strings. *)
Definition array_includes (a : list string) (x : string) : bool :=
  existsb (String.eqb x) a.

End Js.

(** ** The stream reader loop

    [while (true) { read; buffer += decoder.decode(value, {stream: true});
    lines = buffer.split('\n'); buffer = lines.pop();
    for (line of lines) ... }], for any per-line action on any component
    state. A response body is the list of the byte chunks that
    [reader.read()] delivers before [done]. *)

Section Reader.

Context {S D : Type}.

(** [decoder.decode(value, {stream: true})] on a [TextDecoder] in state
    [D]: the decoder that holds the bytes still pending, and the text that
    the bytes of [value] complete. *)
Variable decode : D -> list byte -> D * string.

Variable process_line : string -> S -> S.

(** [for (const line of lines) { ... }]. *)
Definition for_lines (lines : list string) (st : S) : S :=
  fold_left (fun s line => process_line line s) lines st.

(** The variables of the loop: the decoder, [buffer] and the component
    state. *)
Record reading : Type := mkReading {
  decoder : D;
  buffer : string;
  current : S
}.

(** One iteration of the loop, for a chunk that is not [done]. *)
Definition read_step (value : list byte) (r : reading) : reading :=
  let (dec, text) := decode (decoder r) value in
  let buffer := (buffer r ++ text)%string in
  let lines := Js.split buffer in
  mkReading dec (Js.pop_value lines) (for_lines (Js.pop_rest lines) (current r)).

(** The whole loop: the variables when [done] arrives. *)
Fixpoint read_loop (chunks : list (list byte)) (r : reading) : reading :=
  match chunks with
  | [] => r
  | value :: rest => read_loop rest (read_step value r)
  end.

(** The text that the decoder yields over the chunks, one after the other. *)
Fixpoint decoded (dec : D) (chunks : list (list byte)) : string :=
  match chunks with
  | [] => EmptyString
  | value :: rest =>
      let (dec', text) := decode dec value in
      (text ++ decoded dec' rest)%string
  end.

(** The same action, recording the state reached after every line. *)
Definition traced (line : string) (ts : list S * S) : list S * S :=
  let s' := process_line line (snd ts) in
  (fst ts ++ [s'], s').

End Reader.

Arguments reading : clear implicits.
Arguments mkReading {S D} decoder buffer current.

(** ** Shared vocabulary *)

(** Outcome of an [axios] call: the promise is rejected (network error or
    non-2xx status), or it resolves and [res.data] is the payload. *)
Inductive response (A : Type) : Type :=
| Rejected : response A
| Resolved (data : A) : response A.
Arguments Rejected {A}.
Arguments Resolved {A} data.

(** The chart components that a message bubble can mount. *)
Inductive chart_element (point : Type) : Type :=
| LineChart (data : list point)
| AnomalyChart (data : list point)
| ForecastChart (data : list point).
Arguments LineChart {point} data.
Arguments AnomalyChart {point} data.
Arguments ForecastChart {point} data.

(** [v === 'lit'] for a field [v] that may be [undefined] or not a string. *)
Definition strict_eq (v : option string) (lit : string) : bool :=
  match v with
  | Some s => String.eqb s lit
  | None => false
  end.

(** Truthiness of a flag that is [undefined], [true] or [false]. *)
Definition truthy_flag (v : option bool) : bool :=
  match v with
  | Some b => b
  | None => false
  end.

(** ** frontend/src/pages/ChatPage.jsx *)

Module ChatPage.
Section Component.

(** A chart record [{timestamp, ...}]; the component never looks inside. *)
Context {point : Type}.

(** A chat message object: [role] and [content] always, [chart_data] and
    [streaming] when set ([None] is [undefined]). *)
Record message : Type := mkMessage {
  role : string;
  content : string;
  chart_data : option (list point);
  streaming : option bool
}.

(** An entry of the thread side bar. *)
Record thread : Type := mkThread {
  thread_id : string;
  title : string
}.

(** The [useState] cells of the component that the handlers write. *)
Record state : Type := mkState {
  messages : list message;
  input : string;
  loading : bool;
  status : string;
  threads : list thread;
  activeThreadId : option string
}.

Definition greeting : message :=
  mkMessage "agent"
    "Hello! I am your AI Data Assistant. I can help you analyze machine performance, query databases, and troubleshoot anomalies."
    None None.

(** Initial values of the cells. *)
Definition initial : state := mkState [greeting] "" false "" [] None.

(** *** Setters *)

Definition setMessages (f : list message -> list message) (st : state) : state :=
  mkState (f (messages st)) (input st) (loading st) (status st)
          (threads st) (activeThreadId st).

Definition setInput (v : string) (st : state) : state :=
  mkState (messages st) v (loading st) (status st) (threads st) (activeThreadId st).

Definition setLoading (v : bool) (st : state) : state :=
  mkState (messages st) (input st) v (status st) (threads st) (activeThreadId st).

Definition setStatus (v : string) (st : state) : state :=
  mkState (messages st) (input st) (loading st) v (threads st) (activeThreadId st).

Definition setThreads (f : list thread -> list thread) (st : state) : state :=
  mkState (messages st) (input st) (loading st) (status st)
          (f (threads st)) (activeThreadId st).

Definition setActiveThreadId (v : option string) (st : state) : state :=
  mkState (messages st) (input st) (loading st) (status st) (threads st) v.

(** *** Thread handlers *)

Definition handleResetChat (st : state) : state :=
  setStatus "" (setMessages (fun _ => [greeting]) st).

(** A stored message as the server returns it; [metadata] may be absent. *)
Record metadata_t : Type := mkMetadata {
  meta_chart_data : option (list point)
}.

Record item : Type := mkItem {
  item_role : string;
  item_content : string;
  item_metadata : option metadata_t
}.

(** [item => ({role: item.role, content: item.content,
               chart_data: item.metadata?.chart_data})]. *)
Definition item_to_message (i : item) : message :=
  mkMessage (item_role i) (item_content i)
    (match item_metadata i with
     | Some m => meta_chart_data m
     | None => None
     end)
    None.

(** [res.data && res.data.length > 0]. *)
Definition has_items {A} (data : option (list A)) : bool :=
  match data with
  | Some l => 0 <? length l
  | None => false
  end.

Definition or_empty {A} (data : option (list A)) : list A :=
  match data with
  | Some l => l
  | None => []
  end.

Definition loadThread (threadId : string) (res : response (option (list item)))
    (st : state) : state :=
  match res with
  | Rejected => st
  | Resolved data =>
      let st1 := setActiveThreadId (Some threadId) st in
      if has_items data
      then setMessages (fun _ => map item_to_message (or_empty data)) st1
      else setMessages (fun _ => [greeting]) st1
  end.

Definition createNewThread (res : response thread) (st : state) : state :=
  match res with
  | Rejected => st
  | Resolved data =>
      let newThread := mkThread (thread_id data) (title data) in
      setMessages (fun _ => [greeting])
        (setActiveThreadId (Some (thread_id data))
           (setThreads (fun prev => newThread :: prev) st))
  end.

(** [setThreads(res.data || [])]. *)
Definition refreshThreads (res : response (option (list thread))) (st : state) : state :=
  match res with
  | Rejected => st
  | Resolved data => setThreads (fun _ => or_empty data) st
  end.

(** The effect run on mount: [signed_in] is [user && token]. The list of
    the server is installed and its first thread, if any, is loaded. *)
Definition fetchThreads (signed_in : bool)
    (res : response (option (list thread)))
    (load : response (option (list item))) (st : state) : state :=
  if negb signed_in then st
  else match res with
       | Rejected => st
       | Resolved data =>
           let st1 := setThreads (fun _ => or_empty data) st in
           if has_items data then
             match or_empty data with
             | first :: _ => loadThread (thread_id first) load st1
             | [] => st1
             end
           else st1
       end.

(** [t => t.thread_id !== threadId]. *)
Definition other_than (threadId : string) (t : thread) : bool :=
  negb (String.eqb (thread_id t) threadId).

Definition deleteThread (threadId : string) (res : response unit)
    (load : response (option (list item))) (st : state) : state :=
  match res with
  | Rejected => st
  | Resolved _ =>
      let st1 := setThreads (fun prev => filter (other_than threadId) prev) st in
      if strict_eq (activeThreadId st) threadId then
        let remaining := filter (other_than threadId) (threads st) in
        match remaining with
        | first :: _ => loadThread (thread_id first) load st1
        | [] => handleResetChat (setActiveThreadId None st1)
        end
      else st1
  end.

(** The side bar lists the newest thread first: no thread is older than
    one that follows it. The creation time lives on the server;
    [created] gives it for the entries of the list. *)
Definition newest_first (created : thread -> nat) (l : list thread) : Prop :=
  StronglySorted (fun a b => created b <= created a) l.

(** *** The streaming protocol

    The object that [JSON.parse(line)] yields, read at the types of the
    protocol: [type] is [None] when the field is absent or not a string;
    [content] is the string payload (unused by [answer_end]); the chart
    fields are [None] when absent or [null]. *)
Record data : Type := mkData {
  data_type : option string;
  data_content : string;
  data_chart_data : option (list point);
  data_chart_type : option string
}.

(** [JSON.parse]: [None] when the line makes the [try] block throw (the
    text is not JSON, or it is the JSON [null], whose [.type] throws). *)
Variable JSON_parse : string -> option data.

(** Updater of the [token] branch. *)
Definition append_token (c : string) (prev : list message) : list message :=
  match Js.last_elem prev with
  | Some lastMsg =>
      if String.eqb (role lastMsg) "agent" && truthy_flag (streaming lastMsg)
      then Js.slice_init prev ++
           [mkMessage (role lastMsg) (content lastMsg ++ c)
                      (chart_data lastMsg) (streaming lastMsg)]
      else prev ++ [mkMessage "agent" c None (Some true)]
  | None => prev ++ [mkMessage "agent" c None (Some true)]
  end.

(** Updater of the [answer_end] branch. *)
Definition finalize (prev : list message) : list message :=
  match Js.last_elem prev with
  | Some lastMsg =>
      if truthy_flag (streaming lastMsg)
      then Js.slice_init prev ++
           [mkMessage (role lastMsg) (content lastMsg)
                      (chart_data lastMsg) (Some false)]
      else prev
  | None => prev
  end.

(** [lastMsg && lastMsg.role === 'agent' && lastMsg.streaming] on the
    last message of [prev]. *)
Definition streaming_tail (prev : list message) : bool :=
  match Js.last_elem prev with
  | Some lastMsg => String.eqb (role lastMsg) "agent" && truthy_flag (streaming lastMsg)
  | None => false
  end.

(** The last message of [base], if any, is not streaming. *)
Definition idle_last (base : list message) : Prop :=
  forall m, Js.last_elem base = Some m -> truthy_flag (streaming m) = false.

(** [data.type === t]. *)
Definition is_type (t : string) (d : data) : bool := strict_eq (data_type d) t.

(** The [if / else if] chain on [data.type]. *)
Definition dispatch (d : data) (st : state) : state :=
  if strict_eq (data_type d) "status" then
    setStatus (data_content d) st
  else if strict_eq (data_type d) "log" then
    st
  else if strict_eq (data_type d) "token" then
    setStatus "" (setMessages (append_token (data_content d)) st)
  else if strict_eq (data_type d) "answer_end" then
    setStatus "" (setMessages finalize st)
  else if strict_eq (data_type d) "answer" then
    setStatus ""
      (setMessages
         (fun prev => prev ++ [mkMessage "agent" (data_content d)
                                         (data_chart_data d) None]) st)
  else if strict_eq (data_type d) "error" then
    setStatus ""
      (setMessages
         (fun prev => prev ++ [mkMessage "agent" ("Error: " ++ data_content d)
                                         None None]) st)
  else st.

(** Body of [for (const line of lines)]: blank lines are skipped, lines
    that do not parse are logged and dropped. *)
Definition process_line (line : string) (st : state) : state :=
  if Js.blank line then st
  else match JSON_parse line with
       | Some d => dispatch d st
       | None => st
       end.

(** A sequence of decoded events, dispatched in order. *)
Definition for_events (ds : list data) (st : state) : state :=
  fold_left (fun s d => dispatch d s) ds st.

(** The text carried by the [token] events of a sequence, in order. *)
Definition token_text (ds : list data) : string :=
  Js.join (map data_content (filter (is_type "token") ds)).

(** Events that may occur while an answer is being streamed: tokens, and
    the [status] and [log] events that do not touch the messages. *)
Definition in_run (d : data) : bool :=
  is_type "token" d || is_type "status" d || is_type "log" d.

(** *** handleSubmit *)

(** What the [fetch] of [/agent/stream] does: it rejects, it answers
    with a status that is not [ok], or it delivers a body as a list of
    byte chunks, after which [reader.read()] reports [done] or, when
    [broken], rejects. *)
Inductive stream : Type :=
| FetchRejected
| NotOk (http_status : nat)
| Body (chunks : list (list byte)) (broken : bool).

(** The three network exchanges of one submission. *)
Record network : Type := mkNetwork {
  create_res : response thread;
  stream_res : stream;
  refresh_res : response (option (list thread))
}.

(** [!currentThreadId]: [null] and the empty string are falsy. *)
Definition no_thread (currentThreadId : option string) : bool :=
  match currentThreadId with
  | None => true
  | Some s => String.eqb s ""
  end.

(** The first lines of the handler, up to [setStatus('Starting...')]. *)
Definition begin_submit (st : state) : state :=
  let userMsg := input st in
  setStatus "Starting..."
    (setLoading true
       (setInput ""
          (setMessages (fun prev => prev ++ [mkMessage "user" userMsg None None]) st))).

(** Auto-creation of a thread when none is active; [current] is the value
    of [activeThreadId] seen by the handler. *)
Definition auto_create (current : option string) (res : response thread)
    (st : state) : state :=
  if no_thread current then
    match res with
    | Rejected => st
    | Resolved d =>
        let newThread := mkThread (thread_id d) (title d) in
        setActiveThreadId (Some (thread_id d))
          (setThreads (fun prev => newThread :: prev) st)
    end
  else st.

(** The state in which the request is sent and the reader starts. *)
Definition stream_start (create : response thread) (st : state) : state :=
  auto_create (activeThreadId st) create (begin_submit st).

(** The outer [catch] block. *)
Definition on_stream_error (st : state) : state :=
  setStatus ""
    (setMessages
       (fun prev => prev ++ [mkMessage "agent"
                               "Sorry, connection failed. Please try again."
                               None None]) st).

(** The [TextDecoder] of the handler: its states, [decode] in stream
    mode, and the state of [new TextDecoder()]. *)
Context {D : Type}.
Variable decode : D -> list byte -> D * string.
Variable new_TextDecoder : D.

(** The [try] block: request, then the reader loop. *)
Definition run_stream (s : stream) (st : state) : state :=
  match s with
  | FetchRejected => on_stream_error st
  | NotOk _ => on_stream_error st
  | Body chunks broken =>
      let st' :=
        current (read_loop decode process_line chunks
                   (mkReading new_TextDecoder "" st)) in
      if broken then on_stream_error st' else st'
  end.

(** The [finally] block. *)
Definition finally_submit (refresh : response (option (list thread)))
    (st : state) : state :=
  refreshThreads refresh (setStatus "" (setLoading false st)).

Definition handleSubmit (net : network) (st : state) : state :=
  if Js.blank (input st) then st
  else
    finally_submit (refresh_res net)
      (run_stream (stream_res net) (stream_start (create_res net) st)).

(** *** What the page shows *)

(** The active thread, when there is one, is an entry of the side bar. *)
Definition active_listed (st : state) : Prop :=
  match activeThreadId st with
  | None => True
  | Some t => In t (map thread_id (threads st))
  end.

(** The question handed to [handleDownloadPDF] by the download button of
    message [idx]: [prevMsg && prevMsg.role === 'user' ? prevMsg.content :
    "Analysis Result"], where [prevMsg] is [messages[idx - 1]]. *)
Definition report_question (msgs : list message) (idx : nat) : string :=
  match (if idx =? 0 then None else nth_error msgs (idx - 1)) with
  | Some prevMsg =>
      if String.eqb (role prevMsg) "user" then content prevMsg
      else "Analysis Result"
  | None => "Analysis Result"
  end.

(** *** Chart rendering of a message bubble:
    [msg.chart_data && msg.chart_data.length > 0 && <LineChart .../>]. *)
Definition render_chart (msg : message) : list (chart_element point) :=
  match chart_data msg with
  | Some d => if 0 <? length d then [LineChart d] else []
  | None => []
  end.

End Component.

Arguments message : clear implicits.
Arguments state : clear implicits.
Arguments data : clear implicits.
Arguments item : clear implicits.
Arguments metadata_t : clear implicits.

End ChatPage.

(** ** The chat widget [AgentChat] of frontend/src/components/AIReportModal.jsx *)

Module AgentChat.
Section Component.

Context {point : Type}.

(** A message of the widget: it keeps [chart_type] next to [chart_data]. *)
Record message : Type := mkMessage {
  role : string;
  content : string;
  chart_data : option (list point);
  chart_type : option string;
  isStatus : option bool
}.

(** [msg.chart_data && ...]: an array is truthy even when it is empty,
    [undefined] and [null] are not. *)
Definition present {A} (v : option A) : bool :=
  match v with
  | Some _ => true
  | None => false
  end.

Definition chart_of (mk : list point -> chart_element point)
    (v : option (list point)) : list (chart_element point) :=
  match v with
  | Some d => [mk d]
  | None => []
  end.

(** The two conditional chart blocks inside [msg.role === 'agent' && (...)]. *)
Definition render_charts (msg : message) : list (chart_element point) :=
  if String.eqb (role msg) "agent" then
    (if present (chart_data msg) && strict_eq (chart_type msg) "scatter_anomaly"
     then chart_of AnomalyChart (chart_data msg) else [])
    ++
    (if present (chart_data msg) && strict_eq (chart_type msg) "forecast"
     then chart_of ForecastChart (chart_data msg) else [])
  else [].

(** [processStreamData], on the decoded fields of the event. *)
Definition processStreamData (type : option string) (c : string)
    (cd : option (list point)) (ct : option string)
    (prev : list message) : list message :=
  if strict_eq type "answer" then
    prev ++ [mkMessage "agent" c cd ct None]
  else if strict_eq type "status" then
    match Js.last_elem prev with
    | Some lastMsg =>
        if truthy_flag (isStatus lastMsg)
        then Js.slice_init prev ++
             [mkMessage (role lastMsg) c (chart_data lastMsg)
                        (chart_type lastMsg) (isStatus lastMsg)]
        else prev ++ [mkMessage "system" c None None (Some true)]
    | None => prev ++ [mkMessage "system" c None None (Some true)]
    end
  else if strict_eq type "error" then
    prev ++ [mkMessage "agent" ("Error: " ++ c) None None None]
  else prev.

(** *** The cells of the widget that [handleSubmit] writes *)
Record state : Type := mkState {
  messages : list message;
  input : string;
  loading : bool
}.

Definition greeting : message :=
  mkMessage "agent"
    "Hello! I am your AI Data Assistant. Ask me anything about your machines or sensor data."
    None None None.

Definition initial : state := mkState [greeting] "" false.

Definition setMessages (f : list message -> list message) (st : state) : state :=
  mkState (f (messages st)) (input st) (loading st).

Definition setInput (v : string) (st : state) : state :=
  mkState (messages st) v (loading st).

Definition setLoading (v : bool) (st : state) : state :=
  mkState (messages st) (input st) v.

(** An entry of the [chat_history] sent with the question. *)
Record turn : Type := mkTurn {
  turn_role : string;
  turn_content : string
}.

(** [messages.map(msg => ({role: msg.role === 'agent' ? 'assistant' : msg.role,
    content: msg.content})).filter(msg => msg.role !== 'system')]. *)
Definition history (msgs : list message) : list turn :=
  filter (fun t => negb (String.eqb (turn_role t) "system"))
    (map (fun msg =>
            mkTurn (if String.eqb (role msg) "agent" then "assistant" else role msg)
                   (content msg))
         msgs).

(** [processStreamData(data)] on the decoded event. *)
Definition apply_data (d : ChatPage.data point) (prev : list message) : list message :=
  processStreamData (ChatPage.data_type d) (ChatPage.data_content d)
    (ChatPage.data_chart_data d) (ChatPage.data_chart_type d) prev.

(** A sequence of decoded events, in order. *)
Definition for_data (ds : list (ChatPage.data point)) (prev : list message)
    : list message :=
  fold_left (fun l d => apply_data d l) ds prev.

(** The message is a status bubble. *)
Definition is_status (m : message) : bool := truthy_flag (isStatus m).

(** The last message is a status bubble: [lastMsg && lastMsg.isStatus]. *)
Definition status_last (l : list message) : bool :=
  match Js.last_elem l with
  | Some m => is_status m
  | None => false
  end.

(** Two status bubbles follow each other somewhere in the list. *)
Fixpoint stacked_status (l : list message) : bool :=
  match l with
  | a :: (b :: _) as t => (is_status a && is_status b) || stacked_status t
  | _ => false
  end.

(** [JSON.parse], as in the chat page: [None] when the [try] block throws. *)
Variable JSON_parse : string -> option (ChatPage.data point).

(** Body of [for (const line of lines)]: the line is trimmed first. *)
Definition process_line (line : string) (st : state) : state :=
  let trimmedLine := Js.trim line in
  if Js.is_empty trimmedLine then st
  else match JSON_parse trimmedLine with
       | Some d => setMessages (apply_data d) st
       | None => st
       end.

(** What the [fetch] does: it rejects, or it delivers a body (whatever the
    status: [response.ok] is not looked at) whose reads end with [done]
    or, when [broken], with a rejection. *)
Inductive stream : Type :=
| FetchRejected
| Body (chunks : list (list byte)) (broken : bool).

Context {D : Type}.
Variable decode : D -> list byte -> D * string.
Variable new_TextDecoder : D.

Definition begin_submit (st : state) : state :=
  let userMsg := input st in
  setLoading true
    (setInput ""
       (setMessages (fun prev => prev ++ [mkMessage "user" userMsg None None None]) st)).

(** The [catch] block. *)
Definition on_error (st : state) : state :=
  setMessages
    (fun prev => prev ++ [mkMessage "agent" "Sorry, I couldn't process that request."
                            None None None]) st.

(** The reader loop followed by [// Process remaining buffer]. *)
Definition read_body (chunks : list (list byte)) (st : state) : state :=
  let r := read_loop decode process_line chunks (mkReading new_TextDecoder "" st) in
  if Js.is_empty (Js.trim (buffer r)) then current r
  else match JSON_parse (Js.trim (buffer r)) with
       | Some d => setMessages (apply_data d) (current r)
       | None => current r
       end.

Definition run_stream (s : stream) (st : state) : state :=
  match s with
  | FetchRejected => on_error st
  | Body chunks broken =>
      if broken
      then on_error (current (read_loop decode process_line chunks
                                (mkReading new_TextDecoder "" st)))
      else read_body chunks st
  end.

Definition handleSubmit (s : stream) (st : state) : state :=
  if Js.blank (input st) then st
  else setLoading false (run_stream s (begin_submit st)).

End Component.

Arguments state : clear implicits.

Arguments message : clear implicits.

End AgentChat.

(** ** frontend/src/components/MachineCard.jsx *)

Module MachineCard.

(** A JavaScript number by its exact value: every finite double is a
    rational; the three special values are kept apart. *)
Inductive number : Type :=
| NaN
| NegInfinity
| Finite (q : Q)
| PosInfinity.

(** [a > b] on numbers: false as soon as one side is [NaN]. *)
Definition gt (a b : number) : bool :=
  match a, b with
  | NaN, _ | _, NaN => false
  | NegInfinity, _ => false
  | Finite _, NegInfinity => true
  | Finite x, Finite y => negb (Qle_bool x y)
  | Finite _, PosInfinity => false
  | PosInfinity, PosInfinity => false
  | PosInfinity, _ => true
  end.

(** [a <= b] on numbers. *)
Definition le (a b : number) : bool :=
  match a, b with
  | NaN, _ | _, NaN => false
  | NegInfinity, _ => true
  | Finite _, NegInfinity => false
  | Finite x, Finite y => Qle_bool x y
  | Finite _, PosInfinity => true
  | PosInfinity, PosInfinity => true
  | PosInfinity, _ => false
  end.

(** The literal [1.0]. *)
Definition lit_1_0 : number := Finite (1 # 1).

(** The literal [0.8]: the double nearest to 4/5,
    3602879701896397 / 2^52. *)
Definition lit_0_8 : number := Finite (3602879701896397 # 4503599627370496).

(** A record of the metrics response; [vibration] is the field after the
    numeric conversion that [>] applies. *)
Record metric : Type := mkMetric {
  vibration : number
}.

Record state : Type := mkState {
  metrics : list metric;
  loading : bool;
  status : string
}.

(** [useState([])], [useState(true)], [useState('running')]. *)
Definition initial : state := mkState [] true "running".

Definition setMetrics (v : list metric) (st : state) : state :=
  mkState v (loading st) (status st).

Definition setLoading (v : bool) (st : state) : state :=
  mkState (metrics st) v (status st).

Definition setStatus (v : string) (st : state) : state :=
  mkState (metrics st) (loading st) v.

(** The status chosen from the latest record. *)
Definition status_of (latest : metric) : string :=
  if gt (vibration latest) lit_1_0 then "error"
  else if gt (vibration latest) lit_0_8 then "warning"
  else "running".

(** One run of [fetchMetrics] on the outcome of the request. *)
Definition fetchMetrics (res : response (list metric)) (st : state) : state :=
  setLoading false
    match res with
    | Rejected => st
    | Resolved data =>
        let st1 := setMetrics data st in
        if 0 <? length data then
          match Js.last_elem data with
          | Some latest => setStatus (status_of latest) st1
          | None => st1
          end
        else st1
    end.

(** The class of the status badge. *)
Definition getStatusClass (s : string) : string :=
  if String.eqb s "running" then "status-running"
  else if String.eqb s "warning" then "status-warning"
  else if String.eqb s "error" then "status-error"
  else "".

(** The card over time: [fetchMetrics] runs on mount and then every five
    seconds; [outcomes] are the results of the successive requests. *)
Definition polls (outcomes : list (response (list metric))) (st : state) : state :=
  fold_left (fun s res => fetchMetrics res s) outcomes st.

End MachineCard.

(** ** frontend/src/components/SensorChart.jsx *)

Module SensorChart.

(** The values a field of a data row can hold. *)
Inductive value : Type :=
| Undefined
| Null
| Boolean (b : bool)
| Number (n : MachineCard.number)
| Text (s : string)
| Object.

(** A data row: its own properties, in the order of [Object.keys]. *)
Definition row : Type := list (string * value).

Definition keys (r : row) : list string := map fst r.

(** [r[key]]: [undefined] for a property that is absent. *)
Fixpoint get (r : row) (key : string) : value :=
  match r with
  | [] => Undefined
  | (k, v) :: rest => if String.eqb k key then v else get rest key
  end.

(** [typeof v === 'number']. *)
Definition is_number (v : value) : bool :=
  match v with
  | Number _ => true
  | _ => false
  end.

(** Truthiness: [undefined], [null], [false], [0], [NaN] and [''] are falsy. *)
Definition truthy (v : value) : bool :=
  match v with
  | Undefined | Null => false
  | Boolean b => b
  | Number MachineCard.NaN => false
  | Number (MachineCard.Finite q) => negb (Qeq_bool q 0)
  | Number _ => true
  | Text s => negb (Js.is_empty s)
  | Object => true
  end.

Definition metadataKeys : list string :=
  ["timestamp"; "datetime"; "id"; "_id"; "machine_id"].

(** [found || dflt] for the result of [Array.prototype.find] on keys. *)
Definition or_default (found : option string) (dflt : string) : string :=
  match found with
  | Some k => if Js.is_empty k then dflt else k
  | None => dflt
  end.

(** The test of the [find] in [detectValueKey]. *)
Definition numeric_column (firstRow : row) (key : string) : bool :=
  if Js.array_includes metadataKeys (Js.toLowerCase key) then false
  else is_number (get firstRow key).

Definition detectValueKey (valueKey : option string) (data : option (list row))
    : string :=
  match valueKey with
  | Some k =>
      if negb (Js.is_empty k) then k
      else match data with
           | None | Some [] => "value"
           | Some (firstRow :: _) =>
               or_default (find (numeric_column firstRow) (keys firstRow)) "value"
           end
  | None =>
      match data with
      | None | Some [] => "value"
      | Some (firstRow :: _) =>
          or_default (find (numeric_column firstRow) (keys firstRow)) "value"
      end
  end.

Definition detectTimestampKey (data : option (list row)) : string :=
  match data with
  | None | Some [] => "timestamp"
  | Some (firstRow :: _) =>
      if truthy (get firstRow "timestamp") then "timestamp"
      else if truthy (get firstRow "datetime") then "datetime"
      else or_default
             (find (fun k => Js.includes (Js.toLowerCase k) "time") (keys firstRow))
             "timestamp"
  end.

Section Chart.

(** [new Date(ts).toLocaleTimeString()], which depends on the locale. *)
Variable toLocaleTimeString : value -> string.

(** The [chartData] object handed to [<Line>]. *)
Record chart : Type := mkChart {
  labels : list string;
  dataset_label : string;
  dataset_data : list value;
  borderColor : string;
  backgroundColor : string
}.

(** [None] when [data.map] throws, [data] being [undefined] or [null]. *)
Definition chartData (data : option (list row)) (label : option string)
    (color : string) (valueKey : option string) : option chart :=
  let actualValueKey := detectValueKey valueKey data in
  let timestampKey := detectTimestampKey data in
  match data with
  | None => None
  | Some rows =>
      Some (mkChart
              (map (fun d =>
                      let ts := get d timestampKey in
                      if negb (truthy ts) then "" else toLocaleTimeString ts)
                   rows)
              (match label with
               | Some l => if Js.is_empty l then actualValueKey else l
               | None => actualValueKey
               end)
              (map (fun d => get d actualValueKey) rows)
              color
              (color ++ "20"))
  end.

End Chart.

(** The rows that the machine card builds:
    [metrics.map(m => ({ timestamp: m.timestamp, value: m.vibration }))]. *)
Definition point_row (tv : value * value) : row :=
  [("timestamp", fst tv); ("value", snd tv)].

End SensorChart.

(** ** The authentication context and the routes of the application
    (context/AuthContext.jsx and App.jsx) *)

Module Auth.

(** The user object returned by [/auth/me]. *)
Record user_t : Type := mkUser {
  username : string;
  user_role : option string
}.

(** The cells of [AuthProvider], and the [auth_token] item of
    [localStorage] ([None] when the item is absent). *)
Record state : Type := mkState {
  user : option user_t;
  token : option string;
  loading : bool;
  auth_token : option string
}.

(** [useState(null)], [useState(localStorage.getItem('auth_token'))],
    [useState(true)]. *)
Definition initial (stored : option string) : state :=
  mkState None stored true stored.

Definition setUser (v : option user_t) (st : state) : state :=
  mkState v (token st) (loading st) (auth_token st).

Definition setToken (v : option string) (st : state) : state :=
  mkState (user st) v (loading st) (auth_token st).

Definition setLoading (v : bool) (st : state) : state :=
  mkState (user st) (token st) v (auth_token st).

Definition setItem (v : option string) (st : state) : state :=
  mkState (user st) (token st) (loading st) v.

(** Truthiness of [token]. *)
Definition has_token (st : state) : bool :=
  match token st with
  | Some t => negb (Js.is_empty t)
  | None => false
  end.

Definition logout (st : state) : state :=
  setUser None (setToken None (setItem None st)).

Definition fetchUser (res : response user_t) (st : state) : state :=
  setLoading false
    match res with
    | Resolved data => setUser (Some data) st
    | Rejected => logout st
    end.

(** The effect on [token]. *)
Definition token_effect (res : response user_t) (st : state) : state :=
  if has_token st then fetchUser res st else setLoading false st.

(** [login]: [res] carries [res.data.access_token]; a rejected request
    throws to the caller before anything is written. *)
Definition login (res : response string) (st : state) : state :=
  match res with
  | Rejected => st
  | Resolved newToken => setToken (Some newToken) (setItem (Some newToken) st)
  end.

(** [!!token && !!user]. *)
Definition isAuthenticated (st : state) : bool :=
  has_token st && match user st with Some _ => true | None => false end.

(** [user?.role === 'admin']. *)
Definition isAdmin (st : state) : bool :=
  match user st with
  | Some u => strict_eq (user_role u) "admin"
  | None => false
  end.

(** What happens to the provider, in order: a call of [login] with the
    outcome of its request, a call of [logout], a run of the effect on
    [token] whose request is answered before anything else happens, and
    the answer to an earlier [/auth/me] request that arrives later, after
    other events. *)
Inductive event : Type :=
| Login (res : response string)
| Logout
| TokenEffect (res : response user_t)
| LateAnswer (res : response user_t).

Definition step (st : state) (e : event) : state :=
  match e with
  | Login res => login res st
  | Logout => logout st
  | TokenEffect res => token_effect res st
  | LateAnswer res => fetchUser res st
  end.

Definition run (es : list event) (st : state) : state := fold_left step es st.

(** The routes declared by [AppRoutes], by their [path]: [/], [/login],
    [/register], [/chat] and [/admin]. *)
Inductive route : Type := Home | LoginRoute | RegisterRoute | ChatRoute | AdminRoute.

(** What a route renders: the loading screen, a [<Navigate to=...>] to
    another route, or the page component itself. *)
Inductive view : Type :=
| LoadingScreen
| Navigate (to : route)
| Page (shown : route).

Definition ProtectedRoute (st : state) (children : view) : view :=
  if loading st then LoadingScreen
  else if negb (isAuthenticated st) then Navigate LoginRoute
  else children.

(** [AppRoutes]: the element of each route. *)
Definition AppRoutes (st : state) (r : route) : view :=
  match r with
  | Home => Page Home
  | LoginRoute => if isAuthenticated st then Navigate ChatRoute else Page LoginRoute
  | RegisterRoute => if isAuthenticated st then Navigate ChatRoute else Page RegisterRoute
  | ChatRoute => ProtectedRoute st (Page ChatRoute)
  | AdminRoute => ProtectedRoute st (Page AdminRoute)
  end.

(** Where the browser ends up: a [Navigate] is followed once. *)
Definition settle (st : state) (r : route) : view :=
  match AppRoutes st r with
  | Navigate to => AppRoutes st to
  | v => v
  end.

End Auth.

(** ** frontend/src/components/KnowledgeBaseModal.jsx *)

Module KnowledgeBase.
Section Component.

(** The [File] picked in the file input, and a record of the vector view. *)
Context {file_t vector_t : Type}.

Record state : Type := mkState {
  file : option file_t;
  uploading : bool;
  documents : list string;
  vectors : list vector_t;
  showVectors : bool;
  message : string
}.

Definition initial : state := mkState None false [] [] false "".

Definition setFile (v : option file_t) (st : state) : state :=
  mkState v (uploading st) (documents st) (vectors st) (showVectors st) (message st).

Definition setUploading (v : bool) (st : state) : state :=
  mkState (file st) v (documents st) (vectors st) (showVectors st) (message st).

Definition setDocuments (v : list string) (st : state) : state :=
  mkState (file st) (uploading st) v (vectors st) (showVectors st) (message st).

Definition setVectors (v : list vector_t) (st : state) : state :=
  mkState (file st) (uploading st) (documents st) v (showVectors st) (message st).

Definition setShowVectors (v : bool) (st : state) : state :=
  mkState (file st) (uploading st) (documents st) (vectors st) v (message st).

Definition setMessage (v : string) (st : state) : state :=
  mkState (file st) (uploading st) (documents st) (vectors st) (showVectors st) v.

Definition fetchDocuments (res : response (list string)) (st : state) : state :=
  match res with
  | Rejected => st
  | Resolved data => setDocuments data st
  end.

Definition fetchVectors (res : response (list vector_t)) (st : state) : state :=
  match res with
  | Rejected => st
  | Resolved data => setShowVectors true (setVectors data st)
  end.

(** [setFile(e.target.files[0])]: [None] when the selection is empty. *)
Definition handleFileChange (picked : option file_t) (st : state) : state :=
  setFile picked st.

Definition handleUpload (upload : response unit) (docs : response (list string))
    (st : state) : state :=
  match file st with
  | None => st
  | Some _ =>
      let st1 := setMessage "" (setUploading true st) in
      setUploading false
        match upload with
        | Resolved _ =>
            fetchDocuments docs (setFile None (setMessage "Upload successful!" st1))
        | Rejected => setMessage "Upload failed." st1
        end
  end.

(** [confirmed] is the answer to the [confirm] dialog. *)
Definition handleDelete (filename : string) (confirmed : bool)
    (del : response unit) (docs : response (list string))
    (vecs : response (list vector_t)) (st : state) : state :=
  if negb confirmed then st
  else match del with
       | Resolved _ =>
           let st1 := fetchDocuments docs (setMessage ("Deleted " ++ filename) st) in
           if showVectors st then fetchVectors vecs st1 else st1
       | Rejected => setMessage "Failed to delete document." st
       end.

(** What the user does in the modal, short of pressing [Inspect Vectors]. *)
Inductive action : Type :=
| Pick (picked : option file_t)
| Upload (upload : response unit) (docs : response (list string))
| Delete (filename : string) (confirmed : bool) (del : response unit)
         (docs : response (list string)) (vecs : response (list vector_t)).

Definition act (st : state) (a : action) : state :=
  match a with
  | Pick picked => handleFileChange picked st
  | Upload upload docs => handleUpload upload docs st
  | Delete filename confirmed del docs vecs =>
      handleDelete filename confirmed del docs vecs st
  end.

Definition session (acts : list action) (st : state) : state := fold_left act acts st.

End Component.

Arguments state : clear implicits.
Arguments action : clear implicits.

End KnowledgeBase.

(** ** Sample inputs

    Concrete values on which the definitions above are run further down. *)

Module Samples.

(** A one-character line feed. *)
Definition nl : string := String Js.LF EmptyString.

(** A stand-in for [JSON.parse] on a toy wire format, one letter for the
    [type] and the rest of the line for the [content]: [T] token,
    [E] answer_end, [S] status, [L] log, [A] answer (with two chart
    points), [X] error, [U] an object of unknown type; any other line
    does not parse. *)
Definition parse (line : string) : option (ChatPage.data nat) :=
  match line with
  | String "T" c => Some (ChatPage.mkData (Some "token") c None None)
  | String "E" c => Some (ChatPage.mkData (Some "answer_end") c None None)
  | String "S" c => Some (ChatPage.mkData (Some "status") c None None)
  | String "L" c => Some (ChatPage.mkData (Some "log") c None None)
  | String "A" c => Some (ChatPage.mkData (Some "answer") c (Some [1; 2]) (Some "forecast"))
  | String "X" c => Some (ChatPage.mkData (Some "error") c None None)
  | String "U" c => Some (ChatPage.mkData (Some "ping") c None None)
  | _ => None
  end.

(** The page after the user typed a question. *)
Definition typed : ChatPage.state nat :=
  ChatPage.setInput "status of M1?" ChatPage.initial.

(** A decoder for one-byte characters: it has no state and maps every
    byte to the character of the same code. *)
Definition decode (dec : unit) (bytes : list byte) : unit * string :=
  (dec, string_of_list_byte bytes).

Definition bytes (s : string) : list byte := list_byte_of_string s.

(** The same response body cut in two different ways. *)
Definition body1 : list (list byte) :=
  [bytes ("THel" ++ nl ++ "Tl"); bytes ("o" ++ nl ++ "E" ++ nl)].

Definition body2 : list (list byte) :=
  [bytes ("THel" ++ nl ++ "Tlo"); bytes (nl ++ "E"); bytes nl].

Definition older : ChatPage.thread := ChatPage.mkThread "t1" "Spindle noise".
Definition newer : ChatPage.thread := ChatPage.mkThread "t2" "New Thread".
Definition newest : ChatPage.thread := ChatPage.mkThread "t3" "New Thread".

(** Creation order of the sample threads. *)
Definition created (t : ChatPage.thread) : nat :=
  if String.eqb (ChatPage.thread_id t) "t1" then 1
  else if String.eqb (ChatPage.thread_id t) "t2" then 2
  else 3.

(** The page with two threads, the newer one active. *)
Definition with_threads : ChatPage.state nat :=
  ChatPage.setActiveThreadId (Some "t2")
    (ChatPage.setThreads (fun _ => [newer; older]) typed).

(** The widget after the user typed a question. *)
Definition widget_typed : AgentChat.state nat :=
  AgentChat.setInput "status of M1?" AgentChat.initial.

(** A response in the legacy mode, without a line feed after the answer. *)
Definition legacy_body : list (list byte) :=
  [bytes ("Srouting" ++ nl ++ "Srunning SQL" ++ nl); bytes "AAll machines nominal"].

(** Two records of a machine card, as chart rows. *)
Definition card_points : list (SensorChart.value * SensorChart.value) :=
  [(SensorChart.Text "2024-05-01T10:00:00Z",
    SensorChart.Number (MachineCard.Finite (1 # 2)));
   (SensorChart.Undefined, SensorChart.Number (MachineCard.Finite (9 # 10)))].

(** A row of another shape: an id, a time and two measures. *)
Definition wide_row : SensorChart.row :=
  [("Machine_ID", SensorChart.Number (MachineCard.Finite 7));
   ("recorded_time", SensorChart.Text "10:00");
   ("pressure", SensorChart.Number (MachineCard.Finite (3 # 2)));
   ("vibration", SensorChart.Number (MachineCard.Finite (1 # 2)))].

End Samples.

(** * Properties *)

(** ** Line splitting and the reader loop *)

Section SplitFacts.

Lemma split_not_nil (s : string) : Js.split s <> [].
Proof.
  destruct s as [|c r]; simpl; [discriminate|].
  destruct (Ascii.eqb c Js.LF); [discriminate|].
  destruct (Js.split r); discriminate.
Qed.

Lemma split_String_other (c : ascii) (r : string) :
  Ascii.eqb c Js.LF = false ->
  Js.split (String c r)
  = String c (hd EmptyString (Js.split r)) :: tl (Js.split r).
Proof.
  intros Hc. simpl. rewrite Hc.
  destruct (Js.split r) eqn:E; [now destruct (split_not_nil r)|reflexivity].
Qed.

Lemma removelast_cons2 {A} (x : A) (l : list A) :
  l <> [] -> removelast (x :: l) = x :: removelast l.
Proof. destruct l; [congruence|reflexivity]. Qed.

Lemma last_cons2 {A} (x d : A) (l : list A) :
  l <> [] -> last (x :: l) d = last l d.
Proof. destruct l; [congruence|reflexivity]. Qed.

(** Splitting a concatenation: the complete lines of the first part, then
    the split of its pending line followed by the second part. *)
Lemma split_app (a b : string) :
  Js.split (a ++ b)
  = Js.pop_rest (Js.split a) ++ Js.split (Js.pop_value (Js.split a) ++ b).
Proof.
  unfold Js.pop_rest, Js.pop_value.
  induction a as [|c r IH].
  - reflexivity.
  - destruct (Ascii.eqb c Js.LF) eqn:Hc.
    + simpl. rewrite Hc.
      rewrite removelast_cons2, last_cons2 by apply split_not_nil.
      simpl. now rewrite IH.
    + change (String c r ++ b)%string with (String c (r ++ b)).
      rewrite !split_String_other by assumption.
      rewrite IH.
      destruct (Js.split r) as [|x [|y l]] eqn:E.
      * now destruct (split_not_nil r).
      * cbn [hd tl removelast last app].
        change (String c x ++ b)%string with (String c (x ++ b)).
        rewrite split_String_other by assumption.
        now destruct (Js.split (x ++ b)) eqn:E2; [destruct (split_not_nil (x ++ b))|].
      * cbn [hd tl].
        rewrite !removelast_cons2 by discriminate.
        rewrite !last_cons2 by discriminate.
        reflexivity.
Qed.

(** No piece of a split contains a line feed. *)
Lemma split_piece (s x : string) :
  In x (Js.split s) -> Js.split x = [x].
Proof.
  revert x. induction s as [|c r IH]; intros x Hx.
  - simpl in Hx. destruct Hx as [<-|[]]. reflexivity.
  - destruct (Ascii.eqb c Js.LF) eqn:Hc.
    + simpl in Hx. rewrite Hc in Hx. destruct Hx as [<-|Hx]; [reflexivity|].
      now apply IH.
    + rewrite split_String_other in Hx by assumption.
      destruct (Js.split r) as [|h t] eqn:E; [now destruct (split_not_nil r)|].
      simpl in Hx. destruct Hx as [<-|Hx].
      * rewrite split_String_other by assumption.
        rewrite (IH h) by now left. reflexivity.
      * apply IH. now right.
Qed.

Lemma split_pop_value (s : string) :
  Js.split (Js.pop_value (Js.split s)) = [Js.pop_value (Js.split s)].
Proof.
  apply (split_piece s). unfold Js.pop_value.
  destruct (exists_last (split_not_nil s)) as [l [x E]].
  rewrite E, last_last. apply in_or_app. right. now left.
Qed.

End SplitFacts.

Section ReaderFacts.

Context {S D : Type}.
Variable decode : D -> list byte -> D * string.
Variable process_line : string -> S -> S.

Lemma for_lines_app (l1 l2 : list string) (st : S) :
  for_lines process_line (l1 ++ l2) st
  = for_lines process_line l2 (for_lines process_line l1 st).
Proof. unfold for_lines. apply fold_left_app. Qed.

Lemma pop_value_app (l1 l2 : list string) :
  l2 <> [] -> Js.pop_value (l1 ++ l2) = Js.pop_value l2.
Proof.
  unfold Js.pop_value. intros H.
  induction l1 as [|x l1 IH]; [reflexivity|].
  simpl app. rewrite last_cons2; [exact IH|].
  destruct l1; simpl; [assumption|discriminate].
Qed.

Lemma pop_rest_app (l1 l2 : list string) :
  l2 <> [] -> Js.pop_rest (l1 ++ l2) = l1 ++ Js.pop_rest l2.
Proof. unfold Js.pop_rest. apply removelast_app. Qed.

Lemma append_empty_r (s : string) : (s ++ "")%string = s.
Proof. induction s; simpl; congruence. Qed.

Lemma append_assoc3 (a b c : string) :
  (a ++ (b ++ c))%string = ((a ++ b) ++ c)%string.
Proof. induction a; simpl; congruence. Qed.

Lemma reading_ext (r1 r2 : reading S D) :
  decoder r1 = decoder r2 -> buffer r1 = buffer r2 -> current r1 = current r2 ->
  r1 = r2.
Proof. destruct r1, r2. simpl. now intros -> -> ->. Qed.

(** The loop only depends on the decoded text: it processes, in order,
    the complete lines of the buffer followed by that text, and keeps the
    rest in the buffer. *)
Lemma read_loop_join (chunks : list (list byte)) :
  forall (dec : D) (buf : string) (st : S),
    Js.split buf = [buf] ->
    let r := read_loop decode process_line chunks (mkReading dec buf st) in
    let text := decoded decode dec chunks in
    buffer r = Js.pop_value (Js.split (buf ++ text))
    /\ current r = for_lines process_line (Js.pop_rest (Js.split (buf ++ text))) st.
Proof.
  induction chunks as [|value rest IH]; intros dec buf st Hb.
  - simpl. rewrite append_empty_r, Hb. now split.
  - simpl read_loop. unfold read_step. cbn [decoder buffer current]. simpl decoded.
    destruct (decode dec value) as [dec' text].
    destruct (IH dec' (Js.pop_value (Js.split (buf ++ text)))
                (for_lines process_line (Js.pop_rest (Js.split (buf ++ text))) st)
                (split_pop_value _)) as [Hbuf Hcur].
    cbv zeta in Hbuf, Hcur |- *. rewrite Hbuf, Hcur.
    rewrite append_assoc3, (split_app (buf ++ text)).
    rewrite pop_value_app, pop_rest_app by apply split_not_nil.
    now rewrite for_lines_app.
Qed.

Lemma split_single_empty (s : string) : Js.split s = [EmptyString] -> s = EmptyString.
Proof.
  destruct s as [|c r]; [reflexivity|].
  destruct (Ascii.eqb c Js.LF) eqn:Hc.
  - simpl. rewrite Hc. intros H. injection H as H.
    now destruct (split_not_nil r).
  - rewrite split_String_other by assumption. discriminate.
Qed.

(** A text that ends with a line feed leaves nothing pending. *)
Lemma split_ends_with_LF (s : string) :
  Js.ends_with_LF s = true ->
  Js.split s = Js.pop_rest (Js.split s) ++ [EmptyString].
Proof.
  assert (G : Js.ends_with_LF s = true -> exists l, Js.split s = l ++ [EmptyString]).
  { induction s as [|c r IH]; [discriminate|].
    intros H.
    assert (Hr : r = EmptyString \/ Js.ends_with_LF r = true).
    { destruct r; [now left|right; exact H]. }
    destruct Hr as [->|Hr].
    - simpl in H. simpl. rewrite H. now exists [EmptyString].
    - destruct (IH Hr) as [l E].
      destruct (Ascii.eqb c Js.LF) eqn:Hc.
      + simpl. rewrite Hc, E. now exists (EmptyString :: l).
      + rewrite split_String_other, E by assumption.
        destruct l as [|x l].
        * apply split_single_empty in E. subst r. discriminate.
        * now exists (String c x :: l). }
  intros H. destruct (G H) as [l E].
  rewrite E. unfold Js.pop_rest. now rewrite removelast_last.
Qed.

(** Reader on a newline-terminated text: every line once, empty buffer. *)
Lemma read_loop_complete (chunks : list (list byte)) (dec : D) (st : S) :
  Js.ends_with_LF (decoded decode dec chunks) = true ->
  let r := read_loop decode process_line chunks (mkReading dec EmptyString st) in
  buffer r = EmptyString
  /\ current r
     = for_lines process_line
         (Js.pop_rest (Js.split (decoded decode dec chunks))) st.
Proof.
  intros H.
  destruct (read_loop_join chunks dec EmptyString st eq_refl) as [Hbuf Hcur].
  cbv zeta in Hbuf, Hcur |- *. simpl append in Hbuf, Hcur.
  split; [|exact Hcur].
  rewrite Hbuf, (split_ends_with_LF _ H).
  unfold Js.pop_value. apply last_last.
Qed.

End ReaderFacts.

(** ** The streaming decoder

    What the reader needs of [TextDecoder.decode] in stream mode: an empty
    chunk yields nothing, and feeding two chunks one after the other is
    feeding their concatenation. *)

Section StreamingDecoder.

Context {S D : Type}.
Variable decode : D -> list byte -> D * string.
Variable process_line : string -> S -> S.

Hypothesis decode_nil : forall dec, decode dec [] = (dec, EmptyString).
Hypothesis decode_app : forall dec a b,
    decode dec (a ++ b)
    = (fst (decode (fst (decode dec a)) b),
       (snd (decode dec a) ++ snd (decode (fst (decode dec a)) b))%string).

Lemma decoded_concat (chunks : list (list byte)) :
  forall dec, decoded decode dec chunks = snd (decode dec (concat chunks)).
Proof.
  induction chunks as [|value rest IH]; intros dec; simpl.
  - now rewrite decode_nil.
  - rewrite decode_app. simpl.
    destruct (decode dec value) as [dec' text]. simpl. now rewrite IH.
Qed.

Lemma read_loop_decoder (chunks : list (list byte)) :
  forall r : reading S D,
    decoder (read_loop decode process_line chunks r)
    = fst (decode (decoder r) (concat chunks)).
Proof.
  induction chunks as [|value rest IH]; intros r; simpl.
  - now rewrite decode_nil.
  - rewrite IH, decode_app. unfold read_step.
    destruct (decode (decoder r) value) as [dec' text]. reflexivity.
Qed.

(** Two ways of cutting the same bytes drive the loop to the same point. *)
Lemma read_loop_rechunk (chunks1 chunks2 : list (list byte)) (dec : D) (st : S) :
  concat chunks1 = concat chunks2 ->
  read_loop decode process_line chunks2 (mkReading dec EmptyString st)
  = read_loop decode process_line chunks1 (mkReading dec EmptyString st).
Proof.
  intros Hc.
  destruct (read_loop_join decode process_line chunks1 dec EmptyString st eq_refl)
    as [Hb1 Hc1].
  destruct (read_loop_join decode process_line chunks2 dec EmptyString st eq_refl)
    as [Hb2 Hc2].
  cbv zeta in Hb1, Hc1, Hb2, Hc2.
  rewrite !decoded_concat, <- Hc in Hb2, Hc2.
  rewrite !decoded_concat in Hb1, Hc1.
  apply reading_ext.
  - rewrite !read_loop_decoder. now rewrite Hc.
  - now rewrite Hb1, Hb2.
  - now rewrite Hc1, Hc2.
Qed.

End StreamingDecoder.

(** ** The chat page: stream reader *)

Section ChatReader.

Context {point D : Type}.
Variable decode : D -> list byte -> D * string.
Variable new_TextDecoder : D.
Variable JSON_parse : string -> option (ChatPage.data point).

Hypothesis decode_nil : forall dec, decode dec [] = (dec, EmptyString).
Hypothesis decode_app : forall dec a b,
    decode dec (a ++ b)
    = (fst (decode (fst (decode dec a)) b),
       (snd (decode dec a) ++ snd (decode (fst (decode dec a)) b))%string).
(** A line feed byte always decodes to a line feed, at the end of the text. *)
Hypothesis decode_LF : forall dec bytes,
    Js.ends_with_LF (snd (decode dec (bytes ++ [Byte.x0a]))) = true.

Abbreviation state := (ChatPage.state point).
Abbreviation process := (ChatPage.process_line JSON_parse).

(** C9. Re-chunking a newline-terminated response is a no-op. The bytes
    decode to a text that splits into its lines followed by an empty rest;
    the reader handles exactly those lines, once each and in order, and
    ends with an empty buffer; two ways of cutting the same bytes into
    chunks give the same decoder, buffer and state, the same sequence of
    intermediate states, and the same result of the [try] block. *)
Theorem reader_rechunking_noop
    (chunks1 chunks2 : list (list byte)) (st : state) :
  concat chunks1 = concat chunks2 ->
  (exists bytes, concat chunks1 = bytes ++ [Byte.x0a]) ->
  let text := snd (decode new_TextDecoder (concat chunks1)) in
  let lines := Js.pop_rest (Js.split text) in
  let start := mkReading new_TextDecoder EmptyString st in
  Js.split text = lines ++ [EmptyString]
  /\ buffer (read_loop decode process chunks1 start) = EmptyString
  /\ current (read_loop decode process chunks1 start) = for_lines process lines st
  /\ read_loop decode process chunks2 start = read_loop decode process chunks1 start
  /\ read_loop decode (traced process) chunks2
       (mkReading new_TextDecoder EmptyString ([], st))
     = read_loop decode (traced process) chunks1
         (mkReading new_TextDecoder EmptyString ([], st))
  /\ (forall broken : bool,
        ChatPage.run_stream JSON_parse decode new_TextDecoder
          (ChatPage.Body chunks2 broken) st
        = ChatPage.run_stream JSON_parse decode new_TextDecoder
            (ChatPage.Body chunks1 broken) st).
Proof.
  intros Hcat [bytes Hbytes] text lines start.
  assert (Htext : decoded decode new_TextDecoder chunks1 = text).
  { now apply decoded_concat. }
  assert (Hend : Js.ends_with_LF text = true).
  { unfold text. rewrite Hbytes. apply decode_LF. }
  destruct (read_loop_complete decode process chunks1 new_TextDecoder st)
    as [Hbuf Hcur].
  { now rewrite Htext. }
  cbv zeta in Hbuf, Hcur. rewrite Htext in Hcur.
  split; [|split; [|split; [|split; [|split]]]].
  - apply split_ends_with_LF, Hend.
  - exact Hbuf.
  - exact Hcur.
  - now apply read_loop_rechunk.
  - now apply read_loop_rechunk.
  - intros broken. unfold ChatPage.run_stream.
    now rewrite (read_loop_rechunk decode process decode_nil decode_app
                   chunks1 chunks2 new_TextDecoder st Hcat).
Qed.

End ChatReader.

(** ** Arrays seen from their last element *)

Section LastElem.

Context {A : Type}.

Lemma last_elem_snoc (l : list A) (x : A) : Js.last_elem (l ++ [x]) = Some x.
Proof. unfold Js.last_elem. now rewrite rev_unit. Qed.

Lemma slice_init_snoc (l : list A) (x : A) : Js.slice_init (l ++ [x]) = l.
Proof. unfold Js.slice_init. apply removelast_last. Qed.

Lemma last_elem_None (l : list A) : Js.last_elem l = None -> l = [].
Proof.
  destruct l as [|a l] using rev_ind; [reflexivity|].
  now rewrite last_elem_snoc.
Qed.

Lemma last_elem_Some (l : list A) (x : A) :
  Js.last_elem l = Some x -> l = Js.slice_init l ++ [x].
Proof.
  destruct l as [|a l] using rev_ind; [discriminate|].
  rewrite last_elem_snoc, slice_init_snoc. now intros [= ->].
Qed.

End LastElem.

(** ** The chat page: dispatch of the protocol events *)

Section ChatDispatch.

Context {point : Type}.

Abbreviation message := (ChatPage.message point).
Abbreviation data := (ChatPage.data point).

Lemma dispatch_status (d : data) (st : ChatPage.state point) :
  ChatPage.data_type d = Some "status" ->
  ChatPage.dispatch d st = ChatPage.setStatus (ChatPage.data_content d) st.
Proof. intros H. unfold ChatPage.dispatch. now rewrite H. Qed.

Lemma dispatch_log (d : data) (st : ChatPage.state point) :
  ChatPage.data_type d = Some "log" -> ChatPage.dispatch d st = st.
Proof. intros H. unfold ChatPage.dispatch. now rewrite H. Qed.

Lemma dispatch_token (d : data) (st : ChatPage.state point) :
  ChatPage.data_type d = Some "token" ->
  ChatPage.dispatch d st
  = ChatPage.setStatus ""
      (ChatPage.setMessages (ChatPage.append_token (ChatPage.data_content d)) st).
Proof. intros H. unfold ChatPage.dispatch. now rewrite H. Qed.

Lemma dispatch_answer_end (d : data) (st : ChatPage.state point) :
  ChatPage.data_type d = Some "answer_end" ->
  ChatPage.dispatch d st
  = ChatPage.setStatus "" (ChatPage.setMessages ChatPage.finalize st).
Proof. intros H. unfold ChatPage.dispatch. now rewrite H. Qed.

Lemma dispatch_answer (d : data) (st : ChatPage.state point) :
  ChatPage.data_type d = Some "answer" ->
  ChatPage.dispatch d st
  = ChatPage.setStatus ""
      (ChatPage.setMessages
         (fun prev => prev ++ [ChatPage.mkMessage "agent" (ChatPage.data_content d)
                                 (ChatPage.data_chart_data d) None]) st).
Proof. intros H. unfold ChatPage.dispatch. now rewrite H. Qed.

Lemma dispatch_error (d : data) (st : ChatPage.state point) :
  ChatPage.data_type d = Some "error" ->
  ChatPage.dispatch d st
  = ChatPage.setStatus ""
      (ChatPage.setMessages
         (fun prev => prev ++ [ChatPage.mkMessage "agent"
                                 ("Error: " ++ ChatPage.data_content d) None None]) st).
Proof. intros H. unfold ChatPage.dispatch. now rewrite H. Qed.

Lemma is_type_eq (t : string) (d : data) :
  ChatPage.is_type t d = true <-> ChatPage.data_type d = Some t.
Proof.
  unfold ChatPage.is_type, strict_eq.
  destruct (ChatPage.data_type d) as [s|]; [|split; discriminate].
  rewrite String.eqb_eq. split; congruence.
Qed.

(** The three kinds of event of a run, by their effect on the messages. *)
Lemma in_run_cases (d : data) (st : ChatPage.state point) :
  ChatPage.in_run d = true ->
  (ChatPage.is_type "token" d = true
   /\ ChatPage.messages (ChatPage.dispatch d st)
      = ChatPage.append_token (ChatPage.data_content d) (ChatPage.messages st))
  \/ (ChatPage.is_type "token" d = false
      /\ ChatPage.messages (ChatPage.dispatch d st) = ChatPage.messages st).
Proof.
  unfold ChatPage.in_run. intros H.
  destruct (ChatPage.is_type "token" d) eqn:Ht.
  - left. split; [reflexivity|].
    apply is_type_eq in Ht. now rewrite dispatch_token.
  - right. split; [reflexivity|].
    simpl in H. apply orb_true_iff in H. destruct H as [H|H]; apply is_type_eq in H.
    + now rewrite dispatch_status.
    + now rewrite dispatch_log.
Qed.

Lemma append_token_streaming (c : string) (ms : list message) (m : message) :
  ChatPage.role m = "agent" -> ChatPage.streaming m = Some true ->
  ChatPage.append_token c (ms ++ [m])
  = ms ++ [ChatPage.mkMessage "agent" (ChatPage.content m ++ c)
                              (ChatPage.chart_data m) (Some true)].
Proof.
  intros Hr Hs. unfold ChatPage.append_token.
  rewrite last_elem_snoc, slice_init_snoc, Hr, Hs. reflexivity.
Qed.

Lemma append_token_fresh (c : string) (prev : list message) :
  ChatPage.streaming_tail prev = false ->
  ChatPage.append_token c prev
  = prev ++ [ChatPage.mkMessage "agent" c None (Some true)].
Proof.
  unfold ChatPage.streaming_tail, ChatPage.append_token.
  destruct (Js.last_elem prev) as [m|]; [|reflexivity].
  now intros ->.
Qed.

(** While a message is streaming, a run only extends its content. *)
Lemma run_extends (evs : list data) :
  Forall (fun d => ChatPage.in_run d = true) evs ->
  forall (st : ChatPage.state point) (ms : list message) (c : string)
         (cd : option (list point)),
    ChatPage.messages st = ms ++ [ChatPage.mkMessage "agent" c cd (Some true)] ->
    ChatPage.messages (ChatPage.for_events evs st)
    = ms ++ [ChatPage.mkMessage "agent" (c ++ ChatPage.token_text evs) cd (Some true)].
Proof.
  induction 1 as [|d evs Hd _ IH]; intros st ms c cd Hst.
  - unfold ChatPage.token_text. simpl. now rewrite append_empty_r.
  - change (ChatPage.for_events (d :: evs) st)
      with (ChatPage.for_events evs (ChatPage.dispatch d st)).
    unfold ChatPage.token_text. simpl filter.
    destruct (in_run_cases d st Hd) as [[Ht Hm]|[Ht Hm]]; rewrite Ht.
    + rewrite Hst, append_token_streaming in Hm by reflexivity.
      rewrite (IH _ _ _ _ Hm). simpl. now rewrite append_assoc3.
    + rewrite Hst in Hm. now rewrite (IH _ _ _ _ Hm).
Qed.

(** A run that starts when no message is streaming opens one message. *)
Lemma run_opens (evs : list data) :
  Forall (fun d => ChatPage.in_run d = true) evs ->
  existsb (ChatPage.is_type "token") evs = true ->
  forall st : ChatPage.state point,
    ChatPage.streaming_tail (ChatPage.messages st) = false ->
    ChatPage.messages (ChatPage.for_events evs st)
    = ChatPage.messages st
      ++ [ChatPage.mkMessage "agent" (ChatPage.token_text evs) None (Some true)].
Proof.
  induction 1 as [|d evs Hd Hevs IH]; intros Hex st Hst; [discriminate|].
  change (ChatPage.for_events (d :: evs) st)
    with (ChatPage.for_events evs (ChatPage.dispatch d st)).
  unfold ChatPage.token_text. simpl filter. simpl in Hex.
  destruct (in_run_cases d st Hd) as [[Ht Hm]|[Ht Hm]]; rewrite Ht in *.
  - rewrite append_token_fresh in Hm by assumption.
    now rewrite (run_extends evs Hevs _ _ _ _ Hm).
  - simpl in Hex. rewrite <- Hm. apply IH; [assumption|now rewrite Hm].
Qed.

End ChatDispatch.

Section ChatStreaming.

Context {point : Type}.

Abbreviation smessage := (ChatPage.message point).
Abbreviation sdata := (ChatPage.data point).
Abbreviation sstate := (ChatPage.state point).

Lemma finalize_content (prev : list smessage) :
  map ChatPage.content (ChatPage.finalize prev) = map ChatPage.content prev.
Proof.
  unfold ChatPage.finalize.
  destruct (Js.last_elem prev) as [m|] eqn:E; [|reflexivity].
  destruct (truthy_flag (ChatPage.streaming m)); [|reflexivity].
  rewrite (last_elem_Some _ _ E) at 2.
  now rewrite !map_app.
Qed.

Lemma finalize_streaming (ms : list smessage) (m : smessage) :
  truthy_flag (ChatPage.streaming m) = true ->
  ChatPage.finalize (ms ++ [m])
  = ms ++ [ChatPage.mkMessage (ChatPage.role m) (ChatPage.content m)
                              (ChatPage.chart_data m) (Some false)].
Proof.
  intros H. unfold ChatPage.finalize.
  now rewrite last_elem_snoc, slice_init_snoc, H.
Qed.

Lemma finalize_idle (prev : list smessage) :
  (forall m, Js.last_elem prev = Some m -> truthy_flag (ChatPage.streaming m) = false) ->
  ChatPage.finalize prev = prev.
Proof.
  intros H. unfold ChatPage.finalize.
  destruct (Js.last_elem prev) as [m|]; [|reflexivity].
  now rewrite (H m eq_refl).
Qed.

Lemma stream_start_messages (create : response ChatPage.thread) (st : sstate) :
  ChatPage.messages (ChatPage.stream_start create st)
  = ChatPage.messages st ++ [ChatPage.mkMessage "user" (ChatPage.input st) None None].
Proof.
  unfold ChatPage.stream_start, ChatPage.auto_create.
  destruct (ChatPage.no_thread _); [destruct create|]; reflexivity.
Qed.

(** C1. A run of [token] events (possibly interleaved with [status] and
    [log] events) followed by [answer_end], received while no agent message
    is streaming, adds exactly one agent message; its content is the
    concatenation of the token contents in event order and its streaming
    flag ends cleared. The [answer_end] event changes no content: from any
    state it keeps the contents of all messages, it rewrites only the
    streaming flag of a last message that is streaming, and it leaves the
    list as it is when no message is streaming. The reader of
    [handleSubmit] starts in a state where no agent message is streaming,
    and so does whatever follows an [answer_end], [answer] or [error]
    event. *)
Theorem token_run_then_answer_end
    (st : sstate) (evs : list sdata) (e : sdata) :
  Forall (fun d => ChatPage.in_run d = true) evs ->
  existsb (ChatPage.is_type "token") evs = true ->
  ChatPage.data_type e = Some "answer_end" ->
  ChatPage.streaming_tail (ChatPage.messages st) = false ->
  let st1 := ChatPage.for_events evs st in
  let st2 := ChatPage.dispatch e st1 in
  ChatPage.messages st2
  = ChatPage.messages st
    ++ [ChatPage.mkMessage "agent" (ChatPage.token_text evs) None (Some false)]
  /\ map ChatPage.content (ChatPage.messages st2)
     = map ChatPage.content (ChatPage.messages st1)
  /\ (forall s : sstate,
        map ChatPage.content (ChatPage.messages (ChatPage.dispatch e s))
        = map ChatPage.content (ChatPage.messages s)
        /\ (forall ms m,
              ChatPage.messages s = ms ++ [m] ->
              truthy_flag (ChatPage.streaming m) = true ->
              ChatPage.messages (ChatPage.dispatch e s)
              = ms ++ [ChatPage.mkMessage (ChatPage.role m) (ChatPage.content m)
                                          (ChatPage.chart_data m) (Some false)])
        /\ ((forall m, In m (ChatPage.messages s) ->
                       truthy_flag (ChatPage.streaming m) = false) ->
            ChatPage.messages (ChatPage.dispatch e s) = ChatPage.messages s))
  /\ (forall (create : response ChatPage.thread) (s : sstate),
        ChatPage.streaming_tail
          (ChatPage.messages (ChatPage.stream_start create s)) = false)
  /\ (forall (d : sdata) (s : sstate),
        ChatPage.data_type d = Some "answer_end"
        \/ ChatPage.data_type d = Some "answer"
        \/ ChatPage.data_type d = Some "error" ->
        ChatPage.streaming_tail (ChatPage.messages (ChatPage.dispatch d s)) = false).
Proof.
  intros Hrun Htok He Hst st1 st2.
  assert (Hend : forall s : sstate,
             ChatPage.messages (ChatPage.dispatch e s)
             = ChatPage.finalize (ChatPage.messages s)).
  { intros s. now rewrite dispatch_answer_end. }
  assert (H1 : ChatPage.messages st1
               = ChatPage.messages st
                 ++ [ChatPage.mkMessage "agent" (ChatPage.token_text evs) None (Some true)]).
  { now apply run_opens. }
  split; [|split; [|split; [|split]]].
  - unfold st2. rewrite Hend, H1. now rewrite finalize_streaming.
  - unfold st2. rewrite Hend. apply finalize_content.
  - intros s. rewrite Hend. split; [apply finalize_content|split].
    + intros ms m -> Hm. now apply finalize_streaming.
    + intros Hall. apply finalize_idle. intros m Hm.
      apply Hall. rewrite (last_elem_Some _ _ Hm).
      apply in_or_app. right. now left.
  - intros create s. rewrite stream_start_messages.
    unfold ChatPage.streaming_tail. now rewrite last_elem_snoc.
  - intros d s [H|[H|H]].
    + rewrite (dispatch_answer_end d s H). simpl.
      unfold ChatPage.streaming_tail, ChatPage.finalize.
      destruct (Js.last_elem (ChatPage.messages s)) as [m|] eqn:E.
      * destruct (truthy_flag (ChatPage.streaming m)) eqn:F.
        -- rewrite last_elem_snoc. simpl. apply andb_false_r.
        -- now rewrite E, F, andb_false_r.
      * now rewrite E.
    + rewrite (dispatch_answer d s H). simpl.
      unfold ChatPage.streaming_tail. now rewrite last_elem_snoc.
    + rewrite (dispatch_error d s H). simpl.
      unfold ChatPage.streaming_tail. now rewrite last_elem_snoc.
Qed.

End ChatStreaming.

(** ** Invariants of the reader loop *)

Section ReaderInvariant.

Context {S D : Type}.
Variable decode : D -> list byte -> D * string.
Variable process_line : string -> S -> S.
Variable P : S -> Prop.
Hypothesis P_line : forall line s, P s -> P (process_line line s).

Lemma for_lines_invariant (lines : list string) :
  forall s, P s -> P (for_lines process_line lines s).
Proof.
  unfold for_lines. induction lines as [|l lines IH]; intros s Hs; simpl.
  - exact Hs.
  - apply IH, P_line, Hs.
Qed.

Lemma read_loop_invariant (chunks : list (list byte)) :
  forall r : reading S D,
    P (current r) -> P (current (read_loop decode process_line chunks r)).
Proof.
  induction chunks as [|value rest IH]; intros r Hr; simpl.
  - exact Hr.
  - apply IH. unfold read_step.
    destruct (decode (decoder r) value) as [dec text]. cbn [current].
    now apply for_lines_invariant.
Qed.

End ReaderInvariant.

Section ChatFrames.

Context {point : Type}.
Variable JSON_parse : string -> option (ChatPage.data point).

Abbreviation fmessage := (ChatPage.message point).
Abbreviation fdata := (ChatPage.data point).
Abbreviation fstate := (ChatPage.state point).

Abbreviation idle_last := (@ChatPage.idle_last point).

(** What an event can do to the message list. *)
Lemma dispatch_messages (d : fdata) (s : fstate) :
  ChatPage.messages (ChatPage.dispatch d s) = ChatPage.messages s
  \/ ChatPage.messages (ChatPage.dispatch d s)
     = ChatPage.append_token (ChatPage.data_content d) (ChatPage.messages s)
  \/ ChatPage.messages (ChatPage.dispatch d s) = ChatPage.finalize (ChatPage.messages s)
  \/ exists x, ChatPage.messages (ChatPage.dispatch d s) = ChatPage.messages s ++ [x].
Proof.
  unfold ChatPage.dispatch.
  repeat match goal with
         | |- context [if ?b then _ else _] => destruct b
         end; simpl; eauto.
Qed.

Lemma dispatch_threads (d : fdata) (s : fstate) :
  ChatPage.threads (ChatPage.dispatch d s) = ChatPage.threads s
  /\ ChatPage.activeThreadId (ChatPage.dispatch d s) = ChatPage.activeThreadId s
  /\ ChatPage.loading (ChatPage.dispatch d s) = ChatPage.loading s
  /\ ChatPage.input (ChatPage.dispatch d s) = ChatPage.input s.
Proof.
  unfold ChatPage.dispatch.
  repeat match goal with
         | |- context [if ?b then _ else _] => destruct b
         end; simpl; auto.
Qed.

(** Messages shown before the stream are never rewritten by an event. *)
Lemma dispatch_keeps_prefix (base : list fmessage) (d : fdata) (s : fstate) :
  idle_last base ->
  (exists tail, ChatPage.messages s = base ++ tail) ->
  exists tail, ChatPage.messages (ChatPage.dispatch d s) = base ++ tail.
Proof.
  intros Hidle [tail Hs].
  destruct (dispatch_messages d s) as [H|[H|[H|[x H]]]]; rewrite H, Hs; clear H.
  - now exists tail.
  - destruct tail as [|m tail _] using rev_ind.
    + rewrite app_nil_r. unfold ChatPage.append_token.
      destruct (Js.last_elem base) as [m|] eqn:E.
      * rewrite (Hidle m E), andb_false_r. eauto.
      * eauto.
    + rewrite app_assoc. unfold ChatPage.append_token.
      rewrite last_elem_snoc, slice_init_snoc.
      destruct (_ && _); rewrite <- !app_assoc; eauto.
  - destruct tail as [|m tail _] using rev_ind.
    + rewrite app_nil_r. exists []. rewrite app_nil_r.
      now apply finalize_idle.
    + rewrite app_assoc. unfold ChatPage.finalize.
      rewrite last_elem_snoc, slice_init_snoc.
      destruct (truthy_flag _); rewrite <- !app_assoc; eauto.
  - rewrite <- app_assoc. eauto.
Qed.

Lemma process_line_cases (line : string) (s : fstate) :
  ChatPage.process_line JSON_parse line s = s
  \/ exists d, ChatPage.process_line JSON_parse line s = ChatPage.dispatch d s.
Proof.
  unfold ChatPage.process_line.
  destruct (Js.blank line); [now left|].
  destruct (JSON_parse line) as [d|]; [right; now exists d|now left].
Qed.

Lemma process_line_keeps_prefix (base : list fmessage) (line : string) (s : fstate) :
  idle_last base ->
  (exists tail, ChatPage.messages s = base ++ tail) ->
  exists tail, ChatPage.messages (ChatPage.process_line JSON_parse line s) = base ++ tail.
Proof.
  intros Hidle Hs.
  destruct (process_line_cases line s) as [->|[d ->]]; [assumption|].
  now apply dispatch_keeps_prefix.
Qed.

Lemma process_line_threads (line : string) (s : fstate) :
  ChatPage.threads (ChatPage.process_line JSON_parse line s) = ChatPage.threads s
  /\ ChatPage.activeThreadId (ChatPage.process_line JSON_parse line s)
     = ChatPage.activeThreadId s.
Proof.
  destruct (process_line_cases line s) as [->|[d ->]]; [now split|].
  destruct (dispatch_threads d s) as (H1 & H2 & _). now split.
Qed.

End ChatFrames.

(** ** The chat page: protocol events and failures *)

Section ChatProtocol.

Context {point : Type}.
Variable JSON_parse : string -> option (ChatPage.data point).

Abbreviation pmessage := (ChatPage.message point).
Abbreviation pdata := (ChatPage.data point).
Abbreviation pstate := (ChatPage.state point).


End ChatProtocol.

Section ChatFailures.

Context {point D : Type}.
Variable JSON_parse : string -> option (ChatPage.data point).
Variable decode : D -> list byte -> D * string.
Variable new_TextDecoder : D.

Abbreviation xdata := (ChatPage.data point).
Abbreviation xstate := (ChatPage.state point).

Lemma finally_submit_cells (r : response (option (list ChatPage.thread))) (s : xstate) :
  ChatPage.messages (ChatPage.finally_submit r s) = ChatPage.messages s
  /\ ChatPage.loading (ChatPage.finally_submit r s) = false
  /\ ChatPage.status (ChatPage.finally_submit r s) = "".
Proof. destruct r; repeat split. Qed.

Lemma on_stream_error_messages (s : xstate) :
  ChatPage.messages (ChatPage.on_stream_error s)
  = ChatPage.messages s
    ++ [ChatPage.mkMessage "agent" "Sorry, connection failed. Please try again."
          None None].
Proof. reflexivity. Qed.

Lemma read_loop_keeps_prefix (base : list (ChatPage.message point))
    (chunks : list (list byte)) (r : reading xstate D) :
  ChatPage.idle_last base ->
  (exists tail, ChatPage.messages (current r) = base ++ tail) ->
  exists tail,
    ChatPage.messages
      (current (read_loop decode (ChatPage.process_line JSON_parse) chunks r))
    = base ++ tail.
Proof.
  intros Hidle Hs.
  apply (read_loop_invariant decode (ChatPage.process_line JSON_parse)
           (fun s => exists tail, ChatPage.messages s = base ++ tail)); [|assumption].
  intros line s0. now apply process_line_keeps_prefix.
Qed.

(** C3. Failures add one message and leave the rest alone. An [error]
    event appends the agent message [Error: <cause>] and clears the status
    text, keeping every other cell. When the stream request fails (the
    fetch rejects, the status is not ok, or a read rejects) the fixed
    connection-failure message is appended to the messages displayed at
    that point. Whatever the outcome of a submission, the messages
    displayed before it and the user's message are still the head of the
    list, the loading flag is false and the status text is empty. *)
Theorem failure_appends_one_message (net : ChatPage.network) (st : xstate) :
  Js.blank (ChatPage.input st) = false ->
  let failed :=
    ChatPage.mkMessage (point := point) "agent"
      "Sorry, connection failed. Please try again." None None in
  let start := ChatPage.stream_start (ChatPage.create_res net) st in
  let final := ChatPage.handleSubmit JSON_parse decode new_TextDecoder net st in
  (forall (d : xdata) (s : xstate),
      ChatPage.data_type d = Some "error" ->
      ChatPage.dispatch d s
      = ChatPage.setStatus ""
          (ChatPage.setMessages
             (fun prev => prev ++ [ChatPage.mkMessage "agent"
                                     ("Error: " ++ ChatPage.data_content d) None None]) s)
      /\ ChatPage.messages (ChatPage.dispatch d s)
         = ChatPage.messages s
           ++ [ChatPage.mkMessage "agent" ("Error: " ++ ChatPage.data_content d)
                 None None]
      /\ ChatPage.status (ChatPage.dispatch d s) = "")
  /\ (ChatPage.stream_res net = ChatPage.FetchRejected
      \/ (exists n, ChatPage.stream_res net = ChatPage.NotOk n) ->
      ChatPage.messages final
      = ChatPage.messages st
        ++ [ChatPage.mkMessage "user" (ChatPage.input st) None None; failed])
  /\ (forall chunks,
        ChatPage.stream_res net = ChatPage.Body chunks true ->
        ChatPage.messages final
        = ChatPage.messages
            (current (read_loop decode (ChatPage.process_line JSON_parse) chunks
                        (mkReading new_TextDecoder EmptyString start)))
          ++ [failed])
  /\ (exists tail,
        ChatPage.messages final
        = ChatPage.messages st
          ++ ChatPage.mkMessage "user" (ChatPage.input st) None None :: tail)
  /\ ChatPage.loading final = false
  /\ ChatPage.status final = "".
Proof.
  intros Hin failed start final.
  assert (Hfinal : final
                   = ChatPage.finally_submit (ChatPage.refresh_res net)
                       (ChatPage.run_stream JSON_parse decode new_TextDecoder (ChatPage.stream_res net) start)).
  { unfold final, ChatPage.handleSubmit. now rewrite Hin. }
  destruct (finally_submit_cells (ChatPage.refresh_res net)
              (ChatPage.run_stream JSON_parse decode new_TextDecoder (ChatPage.stream_res net) start))
    as (Hm & Hl & Hs).
  rewrite <- Hfinal in Hm, Hl, Hs.
  assert (Hstart : ChatPage.messages start
                   = ChatPage.messages st
                     ++ [ChatPage.mkMessage "user" (ChatPage.input st) None None])
    by apply stream_start_messages.
  repeat apply conj; try assumption.
  - intros d s H. rewrite (dispatch_error d s H). repeat split.
  - intros [H|[n H]]; rewrite Hm, H; simpl;
      rewrite Hstart, <- app_assoc; reflexivity.
  - intros chunks H. rewrite Hm, H. reflexivity.
  - rewrite Hm.
    set (base := ChatPage.messages st
                 ++ [ChatPage.mkMessage "user" (ChatPage.input st) None None]).
    assert (Hidle : ChatPage.idle_last base).
    { intros m. unfold base. rewrite last_elem_snoc. now intros [= <-]. }
    assert (G : exists tail,
               ChatPage.messages
                 (ChatPage.run_stream JSON_parse decode new_TextDecoder (ChatPage.stream_res net) start)
               = base ++ tail).
    { destruct (ChatPage.stream_res net) as [|n|chunks broken]; simpl.
      - rewrite Hstart. eauto.
      - rewrite Hstart. eauto.
      - destruct (read_loop_keeps_prefix base chunks
                    (mkReading new_TextDecoder EmptyString start) Hidle)
          as [tail Ht].
        { exists []. simpl. now rewrite app_nil_r. }
        destruct broken.
        + rewrite on_stream_error_messages, Ht, <- app_assoc. eauto.
        + eauto. }
    destruct G as [tail ->]. exists tail. unfold base.
    now rewrite <- app_assoc.
Qed.

End ChatFailures.

(** ** The chat page: threads *)

Section ChatThreads.

Context {point D : Type}.
Variable JSON_parse : string -> option (ChatPage.data point).
Variable decode : D -> list byte -> D * string.
Variable new_TextDecoder : D.

Abbreviation tstate := (ChatPage.state point).
Abbreviation titem := (ChatPage.item point).
Abbreviation tgreeting := (@ChatPage.greeting point).

Lemma thread_eta (d : ChatPage.thread) :
  ChatPage.mkThread (ChatPage.thread_id d) (ChatPage.title d) = d.
Proof. now destruct d. Qed.

Lemma loadThread_threads (tid : string) (res : response (option (list titem)))
    (st : tstate) :
  ChatPage.threads (ChatPage.loadThread tid res st) = ChatPage.threads st.
Proof.
  unfold ChatPage.loadThread. destruct res as [|data]; [reflexivity|].
  now destruct (ChatPage.has_items data).
Qed.

Lemma filter_sorted {A} (R : A -> A -> Prop) (f : A -> bool) (l : list A) :
  StronglySorted R l -> StronglySorted R (filter f l).
Proof.
  induction 1 as [|a l Hl IH Ha]; simpl; [constructor|].
  destruct (f a); [|assumption].
  constructor; [assumption|].
  apply Forall_forall. intros x Hx. apply filter_In in Hx.
  rewrite Forall_forall in Ha. now apply Ha.
Qed.

(** C5. Loading a thread never fails in the client. A fetch that returns
    no message shows exactly the default greeting; a fetch that returns
    messages shows exactly those, one bubble per stored message, with its
    role, its content and the chart data of its metadata. Hence creating a
    thread and fetching it at once shows the single greeting, whether the
    fetch returns an empty sequence, no data, or is rejected. *)
Theorem load_created_thread_shows_greeting (tid : string) (st : tstate) :
  (forall data,
      ChatPage.has_items data = false ->
      ChatPage.messages (ChatPage.loadThread tid (Resolved data) st) = [tgreeting]
      /\ ChatPage.activeThreadId (ChatPage.loadThread tid (Resolved data) st)
         = Some tid)
  /\ (forall items : list titem,
        items <> [] ->
        let shown := ChatPage.messages
                       (ChatPage.loadThread tid (Resolved (Some items)) st) in
        shown = map ChatPage.item_to_message items
        /\ length shown = length items
        /\ map ChatPage.role shown = map ChatPage.item_role items
        /\ map ChatPage.content shown = map ChatPage.item_content items
        /\ map ChatPage.chart_data shown
           = map (fun i => match ChatPage.item_metadata i with
                           | Some m => ChatPage.meta_chart_data m
                           | None => None
                           end) items)
  /\ ChatPage.loadThread tid Rejected st = st
  /\ (forall (title : string) (res : response (option (list titem))),
        res = Rejected \/ res = Resolved None \/ res = Resolved (Some []) ->
        let created :=
          ChatPage.createNewThread (Resolved (ChatPage.mkThread tid title)) st in
        ChatPage.messages created = [tgreeting]
        /\ ChatPage.messages (ChatPage.loadThread tid res created) = [tgreeting]
        /\ ChatPage.activeThreadId (ChatPage.loadThread tid res created) = Some tid).
Proof.
  repeat apply conj.
  - intros data H. unfold ChatPage.loadThread. rewrite H. now split.
  - intros items Hne shown.
    assert (E : shown = map ChatPage.item_to_message items).
    { unfold shown, ChatPage.loadThread, ChatPage.has_items.
      destruct items; [congruence|reflexivity]. }
    rewrite E. repeat apply conj.
    + reflexivity.
    + apply length_map.
    + rewrite map_map. reflexivity.
    + rewrite map_map. reflexivity.
    + rewrite map_map. reflexivity.
  - reflexivity.
  - intros title res [->|[->| ->]] created; repeat split.
Qed.

(** C6. Threads are created at the head of the list. [createNewThread]
    and the auto-creation of [handleSubmit] put the new thread first and keep
    the existing entries behind it in their order; so a list that shows the
    newest thread first still does, the new thread being the newest.
    Deleting a thread, loading one, and reading a stream keep that order
    too; the refresh at the end of a submission and the fetch on mount
    install the list the server returns, in the server's order. *)
Theorem thread_list_newest_first
    (created : ChatPage.thread -> nat) (d : ChatPage.thread) (st : tstate) :
  ChatPage.newest_first created (ChatPage.threads st) ->
  Forall (fun t => created t <= created d) (ChatPage.threads st) ->
  (ChatPage.threads (ChatPage.createNewThread (Resolved d) st)
   = d :: ChatPage.threads st
   /\ ChatPage.newest_first created
        (ChatPage.threads (ChatPage.createNewThread (Resolved d) st)))
  /\ (ChatPage.no_thread (ChatPage.activeThreadId st) = true ->
      ChatPage.threads (ChatPage.stream_start (Resolved d) st)
      = d :: ChatPage.threads st
      /\ ChatPage.newest_first created
           (ChatPage.threads (ChatPage.stream_start (Resolved d) st)))
  /\ (ChatPage.no_thread (ChatPage.activeThreadId st) = false ->
      ChatPage.threads (ChatPage.stream_start (Resolved d) st) = ChatPage.threads st)
  /\ (forall s chunks broken,
        ChatPage.threads
          (ChatPage.run_stream JSON_parse decode new_TextDecoder (ChatPage.Body chunks broken) s)
        = ChatPage.threads s)
  /\ (forall net,
        Js.blank (ChatPage.input st) = false ->
        ChatPage.threads (ChatPage.handleSubmit JSON_parse decode new_TextDecoder net st)
        = match ChatPage.refresh_res net with
          | Resolved data => ChatPage.or_empty data
          | Rejected =>
              ChatPage.threads (ChatPage.stream_start (ChatPage.create_res net) st)
          end)
  /\ (forall tid res load,
        ChatPage.newest_first created
          (ChatPage.threads (ChatPage.deleteThread tid res load st)))
  /\ (forall tid res,
        ChatPage.threads (ChatPage.loadThread tid res st) = ChatPage.threads st)
  /\ (forall signed_in data load,
        ChatPage.newest_first created (ChatPage.or_empty data) ->
        ChatPage.newest_first created
          (ChatPage.threads (ChatPage.refreshThreads (Resolved data) st))
        /\ ChatPage.newest_first created
             (ChatPage.threads
                (ChatPage.fetchThreads signed_in (Resolved data) load st)))
  /\ (forall net,
        Js.blank (ChatPage.input st) = false ->
        ChatPage.create_res net = Resolved d \/ ChatPage.create_res net = Rejected ->
        (forall data, ChatPage.refresh_res net = Resolved data ->
                      ChatPage.newest_first created (ChatPage.or_empty data)) ->
        ChatPage.newest_first created
          (ChatPage.threads (ChatPage.handleSubmit JSON_parse decode new_TextDecoder net st))).
Proof.
  intros Hsorted Hnew.
  assert (Hcons : ChatPage.newest_first created (d :: ChatPage.threads st)).
  { constructor; assumption. }
  assert (Hrun : forall s chunks broken,
             ChatPage.threads
               (ChatPage.run_stream JSON_parse decode new_TextDecoder (ChatPage.Body chunks broken) s)
             = ChatPage.threads s).
  { intros s chunks broken. simpl.
    assert (G : ChatPage.threads
                  (current (read_loop decode (ChatPage.process_line JSON_parse) chunks
                              (mkReading new_TextDecoder EmptyString s)))
                = ChatPage.threads s).
    { apply (read_loop_invariant decode (ChatPage.process_line JSON_parse)
               (fun x => ChatPage.threads x = ChatPage.threads s)); [|reflexivity].
      intros line x Hx.
      destruct (process_line_threads JSON_parse line x) as [-> _]. exact Hx. }
    destruct broken; exact G. }
  repeat apply conj.
  - simpl. now rewrite thread_eta.
  - simpl. now rewrite thread_eta.
  - unfold ChatPage.stream_start, ChatPage.auto_create. intros ->.
    simpl. rewrite thread_eta. now split.
  - unfold ChatPage.stream_start, ChatPage.auto_create. now intros ->.
  - exact Hrun.
  - intros net Hin. unfold ChatPage.handleSubmit. rewrite Hin.
    unfold ChatPage.finally_submit.
    destruct (ChatPage.refresh_res net) as [|data]; [|reflexivity].
    simpl ChatPage.refreshThreads. cbn [ChatPage.threads ChatPage.setStatus ChatPage.setLoading].
    destruct (ChatPage.stream_res net) as [|n|chunks broken]; try reflexivity.
    apply Hrun.
  - intros tid res load.
    assert (Hf : ChatPage.newest_first created
                   (filter (ChatPage.other_than tid) (ChatPage.threads st))).
    { now apply filter_sorted. }
    unfold ChatPage.deleteThread. destruct res as [|u]; [assumption|].
    destruct (strict_eq _ _); [|exact Hf].
    destruct (filter _ _) as [|first rest] eqn:E.
    + simpl. rewrite E. exact Hf.
    + rewrite loadThread_threads. simpl. now rewrite E.
  - intros tid res. apply loadThread_threads.
  - intros signed_in data load Hdata. split; [exact Hdata|].
    unfold ChatPage.fetchThreads.
    destruct signed_in; simpl; [|assumption].
    destruct (ChatPage.has_items data); [|exact Hdata].
    destruct (ChatPage.or_empty data) eqn:E.
    + simpl. rewrite ?E. exact Hdata.
    + rewrite loadThread_threads. simpl. rewrite ?E. exact Hdata.
  - intros net Hin Hcreate Hserver.
    assert (Hstart : ChatPage.newest_first created
                       (ChatPage.threads
                          (ChatPage.stream_start (ChatPage.create_res net) st))).
    { unfold ChatPage.stream_start, ChatPage.auto_create.
      destruct (ChatPage.no_thread _); [|assumption].
      destruct Hcreate as [-> | ->]; [|assumption].
      simpl. now rewrite thread_eta. }
    unfold ChatPage.handleSubmit. rewrite Hin. unfold ChatPage.finally_submit.
    destruct (ChatPage.refresh_res net) as [|data] eqn:Er.
    + simpl ChatPage.refreshThreads.
      cbn [ChatPage.threads ChatPage.setStatus ChatPage.setLoading].
      destruct (ChatPage.stream_res net) as [|n|chunks broken]; try exact Hstart.
      now rewrite Hrun.
    + simpl. now apply Hserver.
Qed.

End ChatThreads.

Section ChatDelete.

Context {point : Type}.

Abbreviation dstate := (ChatPage.state point).
Abbreviation ditem := (ChatPage.item point).

Lemma other_than_true (tid : string) (x : ChatPage.thread) :
  ChatPage.other_than tid x = true <-> ChatPage.thread_id x <> tid.
Proof.
  unfold ChatPage.other_than. rewrite negb_true_iff.
  destruct (String.eqb_spec (ChatPage.thread_id x) tid); split; congruence.
Qed.




End ChatDelete.


(** ** Chart selection *)

Section Charts.

Context {point : Type}.

(** C8, as the code has it. In the chat widget an agent message that
    carries chart data mounts the anomaly chart exactly when its
    [chart_type] is [scatter_anomaly], the forecast chart exactly when it is
    [forecast], and nothing for any other type. The chat page does not keep
    [chart_type]: a message mounts one line chart exactly when its chart
    data is a non-empty array, so two [answer] events with the same chart
    data render alike whatever their [chart_type]. *)
Theorem chart_selected_by_type_in_widget
    (m : AgentChat.message point) (d : list point) :
  AgentChat.role m = "agent" ->
  AgentChat.chart_data m = Some d ->
  (AgentChat.render_charts m = [AnomalyChart d]
   <-> AgentChat.chart_type m = Some "scatter_anomaly")
  /\ (AgentChat.render_charts m = [ForecastChart d]
      <-> AgentChat.chart_type m = Some "forecast")
  /\ (AgentChat.chart_type m <> Some "scatter_anomaly" ->
      AgentChat.chart_type m <> Some "forecast" ->
      AgentChat.render_charts m = [])
  /\ (forall pm : ChatPage.message point,
        ChatPage.render_chart pm
        = match ChatPage.chart_data pm with
          | Some (p :: l) => [LineChart (p :: l)]
          | _ => []
          end)
  /\ (forall (e1 e2 : ChatPage.data point) (st : ChatPage.state point),
        ChatPage.data_type e1 = Some "answer" ->
        ChatPage.data_type e2 = Some "answer" ->
        ChatPage.data_chart_data e1 = ChatPage.data_chart_data e2 ->
        map ChatPage.render_chart (ChatPage.messages (ChatPage.dispatch e1 st))
        = map ChatPage.render_chart (ChatPage.messages (ChatPage.dispatch e2 st))).
Proof.
  intros Hr Hd.
  assert (R : AgentChat.render_charts m
              = (if strict_eq (AgentChat.chart_type m) "scatter_anomaly"
                 then [AnomalyChart d] else [])
                ++ (if strict_eq (AgentChat.chart_type m) "forecast"
                    then [ForecastChart d] else [])).
  { unfold AgentChat.render_charts. rewrite Hr, Hd. reflexivity. }
  rewrite R. unfold strict_eq.
  split; [|split; [|split; [|split]]].
  - destruct (AgentChat.chart_type m) as [s|]; [|simpl; split; intros X; discriminate X].
    destruct (String.eqb_spec s "scatter_anomaly") as [->|Hs].
    + now split.
    + split; [|congruence].
      destruct (String.eqb s "forecast"); simpl; intros X; discriminate X.
  - destruct (AgentChat.chart_type m) as [s|]; [|simpl; split; intros X; discriminate X].
    destruct (String.eqb_spec s "forecast") as [->|Hs].
    + now split.
    + split; [|congruence].
      destruct (String.eqb s "scatter_anomaly"); simpl; intros X; discriminate X.
  - intros H1 H2.
    destruct (AgentChat.chart_type m) as [s|]; [|reflexivity].
    destruct (String.eqb_spec s "scatter_anomaly"); [congruence|].
    destruct (String.eqb_spec s "forecast"); [congruence|reflexivity].
  - intros pm. unfold ChatPage.render_chart.
    destruct (ChatPage.chart_data pm) as [[|p l]|]; reflexivity.
  - intros e1 e2 st H1 H2 Hcd.
    rewrite (dispatch_answer e1 st H1), (dispatch_answer e2 st H2). simpl.
    rewrite !map_app. simpl. unfold ChatPage.render_chart at 2 4. simpl.
    now rewrite Hcd.
Qed.

End Charts.

(** C8, as stated, fails on the chat page: the message built from an
    [answer] event whose chart data is present and whose [chart_type] is
    neither [scatter_anomaly] nor [forecast] still mounts a chart. *)
Lemma chat_page_chart_ignores_type :
  ~ (forall (e : ChatPage.data nat) (m : ChatPage.message nat),
        ChatPage.data_type e = Some "answer" ->
        Js.last_elem (ChatPage.messages (ChatPage.dispatch e ChatPage.initial)) = Some m ->
        ChatPage.chart_data m <> None ->
        ChatPage.data_chart_type e <> Some "scatter_anomaly" ->
        ChatPage.data_chart_type e <> Some "forecast" ->
        ChatPage.render_chart m = []).
Proof.
  intros H.
  specialize (H (ChatPage.mkData (Some "answer") "Vibration trend"
                   (Some [1; 2]) (Some "bar"))
                (ChatPage.mkMessage "agent" "Vibration trend" (Some [1; 2]) None)).
  discriminate H; try reflexivity; discriminate.
Qed.

(** ** The machine card *)

Section MachineStatus.

Import MachineCard.

Lemma last_elem_length {A} (l : list A) (x : A) :
  Js.last_elem l = Some x -> (0 <? length l) = true.
Proof. destruct l; [discriminate|reflexivity]. Qed.

Lemma gt_Finite (x y : Q) : gt (Finite x) (Finite y) = true <-> (y < x)%Q.
Proof.
  simpl. rewrite negb_true_iff, <- not_true_iff_false, Qle_bool_iff.
  split; [apply Qnot_le_lt|apply Qlt_not_le].
Qed.

Lemma le_Finite (x y : Q) : le (Finite x) (Finite y) = true <-> (x <= y)%Q.
Proof. simpl. apply Qle_bool_iff. Qed.

(** Above [1.0] is above [0.8]. *)
Lemma gt_1_0_gt_0_8 (v : number) : gt v lit_1_0 = true -> gt v lit_0_8 = true.
Proof.
  destruct v as [| |q|]; try (intros H; exact H).
  unfold lit_1_0, lit_0_8. rewrite !gt_Finite. intros H.
  eapply Qlt_trans; [|exact H]. reflexivity.
Qed.

(** Not above [1.0], for a number that compares, is at most [1.0]. *)
Lemma gt_0_8_le_1_0 (v : number) :
  gt v lit_0_8 = true -> gt v lit_1_0 = false <-> le v lit_1_0 = true.
Proof.
  destruct v as [| |q|]; simpl; intros H; try discriminate H.
  - rewrite negb_false_iff. reflexivity.
  - split; intros X; discriminate X.
Qed.

Lemma status_of_cases (latest : metric) :
  let v := vibration latest in
  (gt v lit_1_0 = true /\ status_of latest = "error")
  \/ (gt v lit_1_0 = false /\ gt v lit_0_8 = true /\ status_of latest = "warning")
  \/ (gt v lit_1_0 = false /\ gt v lit_0_8 = false /\ status_of latest = "running").
Proof.
  unfold status_of. simpl.
  destruct (gt (vibration latest) lit_1_0); [now left|].
  destruct (gt (vibration latest) lit_0_8); [right; now left|right; now right].
Qed.

(** C10. On a non-empty metrics response the status is the one chosen
    from the vibration of the last record: [error] exactly when it is above
    [1.0], [warning] exactly when it is above [0.8] and at most [1.0], and
    [running] in every other case. An empty response, like a failed
    request, leaves the status as it was; it starts as [running]. *)
Theorem machine_status_from_latest
    (data : list metric) (latest : metric) (st : state) :
  Js.last_elem data = Some latest ->
  let v := vibration latest in
  let st' := fetchMetrics (Resolved data) st in
  (status st' = "error" <-> gt v lit_1_0 = true)
  /\ (status st' = "warning" <-> gt v lit_0_8 = true /\ le v lit_1_0 = true)
  /\ (status st' = "running"
      <-> gt v lit_1_0 = false /\ ~ (gt v lit_0_8 = true /\ le v lit_1_0 = true))
  /\ (forall q, v = Finite q ->
        (status st' = "error" <-> (1 < q)%Q)
        /\ (status st' = "warning"
            <-> (3602879701896397 # 4503599627370496 < q)%Q /\ (q <= 1)%Q))
  /\ status (fetchMetrics (Resolved []) st) = status st
  /\ status (fetchMetrics Rejected st) = status st
  /\ status initial = "running".
Proof.
  intros Hlast v st'.
  assert (E : status st' = status_of latest).
  { unfold st', fetchMetrics. now rewrite (last_elem_length _ _ Hlast), Hlast. }
  assert (M : (status st' = "error" <-> gt v lit_1_0 = true)
              /\ (status st' = "warning"
                  <-> gt v lit_0_8 = true /\ le v lit_1_0 = true)).
  { rewrite E.
    destruct (status_of_cases latest) as [[H1 ->]|[(H1 & H2 & ->)|(H1 & H2 & ->)]];
      fold v in H1; try fold v in H2.
    - pose proof (gt_1_0_gt_0_8 v H1) as H2.
      split; [tauto|]. split; [discriminate|].
      intros [_ H3]. apply (gt_0_8_le_1_0 v H2) in H3. congruence.
    - split; [split; [discriminate|congruence]|].
      split; [|reflexivity]. intros _. split; [assumption|].
      now apply (gt_0_8_le_1_0 v H2).
    - split; [split; [discriminate|congruence]|].
      split; [discriminate|]. intros [H3 _]. congruence. }
  destruct M as [Me Mw].
  split; [exact Me|]. split; [exact Mw|]. split; [|split; [|repeat split]].
  - rewrite <- Mw, E.
    destruct (status_of_cases latest) as [[H1 ->]|[(H1 & H2 & ->)|(H1 & H2 & ->)]];
      fold v in H1.
    + split; [discriminate|]. intros [H _]. congruence.
    + split; [discriminate|]. intros [_ H]. now destruct H.
    + split; [|reflexivity]. intros _. split; [assumption|discriminate].
  - intros q Hq. rewrite Me, Mw, Hq. unfold lit_1_0, lit_0_8.
    rewrite !gt_Finite, le_Finite. split; reflexivity.
Qed.

End MachineStatus.

(** ** The definitions at work on the sample inputs *)

Example split_sample :
  Js.split ("a" ++ Samples.nl ++ "b" ++ Samples.nl) = ["a"; "b"; ""].
Proof. reflexivity. Qed.

Example split_partial :
  Js.split ("a" ++ Samples.nl ++ "b") = ["a"; "b"]
  /\ Js.split "" = [""].
Proof. split; reflexivity. Qed.

Example submit_streams_hello :
  let net := ChatPage.mkNetwork Rejected (ChatPage.Body Samples.body1 false) Rejected in
  ChatPage.messages (ChatPage.handleSubmit Samples.parse Samples.decode tt net Samples.typed)
  = [ChatPage.greeting;
     ChatPage.mkMessage "user" "status of M1?" None None;
     ChatPage.mkMessage "agent" "Hello" None (Some false)].
Proof. reflexivity. Qed.

Example submit_drops_unterminated_line :
  let net := ChatPage.mkNetwork Rejected (ChatPage.Body [Samples.bytes "THel"] false) Rejected in
  ChatPage.messages (ChatPage.handleSubmit Samples.parse Samples.decode tt net Samples.typed)
  = [ChatPage.greeting; ChatPage.mkMessage "user" "status of M1?" None None].
Proof. reflexivity. Qed.

Example submit_http_error :
  let net := ChatPage.mkNetwork Rejected (ChatPage.NotOk 500) Rejected in
  ChatPage.handleSubmit Samples.parse Samples.decode tt net Samples.typed
  = ChatPage.mkState
      [ChatPage.greeting;
       ChatPage.mkMessage "user" "status of M1?" None None;
       ChatPage.mkMessage "agent" "Sorry, connection failed. Please try again."
         None None]
      "" false "" [] None.
Proof. reflexivity. Qed.

Example status_at_thresholds :
  MachineCard.status_of (MachineCard.mkMetric MachineCard.lit_0_8) = "running"
  /\ MachineCard.status_of (MachineCard.mkMetric (MachineCard.Finite (9 # 10))) = "warning"
  /\ MachineCard.status_of (MachineCard.mkMetric MachineCard.lit_1_0) = "warning"
  /\ MachineCard.status_of (MachineCard.mkMetric (MachineCard.Finite (11 # 10))) = "error"
  /\ MachineCard.status_of (MachineCard.mkMetric MachineCard.NaN) = "running".
Proof. repeat split. Qed.

Example number_comparisons :
  MachineCard.gt (MachineCard.Finite 1) MachineCard.NaN = false
  /\ MachineCard.gt MachineCard.PosInfinity MachineCard.lit_1_0 = true
  /\ MachineCard.le MachineCard.NegInfinity MachineCard.lit_0_8 = true.
Proof. repeat split. Qed.

Example delete_active_thread_loads_next :
  ChatPage.deleteThread "t2" (Resolved tt)
    (Resolved (Some [ChatPage.mkItem "user" "noise on M3?" None;
                     ChatPage.mkItem "agent" "Spindle bearing."
                       (Some (ChatPage.mkMetadata (Some [7; 8])))]))
    Samples.with_threads
  = ChatPage.mkState
      [ChatPage.mkMessage "user" "noise on M3?" None None;
       ChatPage.mkMessage "agent" "Spindle bearing." (Some [7; 8]) None]
      "status of M1?" false "" [Samples.older] (Some "t1").
Proof. reflexivity. Qed.

Example delete_last_thread_resets :
  ChatPage.deleteThread "t1" (Resolved tt) Rejected
    (ChatPage.setActiveThreadId (Some "t1")
       (ChatPage.setThreads (fun _ => [Samples.older]) Samples.typed))
  = ChatPage.mkState [ChatPage.greeting] "status of M1?" false "" [] None.
Proof. reflexivity. Qed.

Example widget_selects_chart :
  AgentChat.render_charts
    (AgentChat.mkMessage "agent" "a" (Some [1]) (Some "scatter_anomaly") None)
  = [AnomalyChart [1]]
  /\ AgentChat.render_charts
       (AgentChat.mkMessage "agent" "a" (Some [1]) (Some "bar") None) = []
  /\ AgentChat.render_charts
       (AgentChat.mkMessage (point := nat) "agent" "a" (Some []) (Some "forecast") None)
     = [ForecastChart []]
  /\ AgentChat.render_charts
       (AgentChat.mkMessage (point := nat) "agent" "a" None (Some "forecast") None) = [].
Proof. repeat split. Qed.

Example page_renders_line_chart :
  map ChatPage.render_chart
    (ChatPage.messages
       (ChatPage.process_line Samples.parse "Aforecast for M1" ChatPage.initial))
  = [[]; [LineChart [1; 2]]].
Proof. reflexivity. Qed.

(** ** Instances of the theorems *)

Lemma token_run_then_answer_end_witness :
  ChatPage.messages
    (ChatPage.dispatch (ChatPage.mkData (Some "answer_end") "" None None)
       (ChatPage.for_events
          [ChatPage.mkData (Some "token") "Hel" None None;
           ChatPage.mkData (Some "token") "lo" None None]
          (ChatPage.stream_start Rejected Samples.typed)))
  = [ChatPage.greeting;
     ChatPage.mkMessage "user" "status of M1?" None None;
     ChatPage.mkMessage (point := nat) "agent" "Hello" None (Some false)].
Proof.
  refine (proj1 (token_run_then_answer_end
                   (ChatPage.stream_start Rejected Samples.typed)
                   [ChatPage.mkData (Some "token") "Hel" None None;
                    ChatPage.mkData (Some "token") "lo" None None]
                   (ChatPage.mkData (Some "answer_end") "" None None)
                   _ _ _ _)).
  - repeat constructor.
  - reflexivity.
  - reflexivity.
  - reflexivity.
Defined.


Lemma failure_appends_one_message_witness :
  let final :=
    ChatPage.handleSubmit Samples.parse Samples.decode tt
      (ChatPage.mkNetwork Rejected (ChatPage.NotOk 503) Rejected) Samples.typed in
  ChatPage.loading final = false /\ ChatPage.status final = "".
Proof.
  refine (proj2 (proj2 (proj2 (proj2
            (failure_appends_one_message Samples.parse Samples.decode tt
               (ChatPage.mkNetwork Rejected (ChatPage.NotOk 503) Rejected)
               Samples.typed _))))).
  reflexivity.
Defined.

Lemma sample_decode_app (dec : unit) (a b : list byte) :
  Samples.decode dec (a ++ b)
  = (fst (Samples.decode (fst (Samples.decode dec a)) b),
     (snd (Samples.decode dec a)
      ++ snd (Samples.decode (fst (Samples.decode dec a)) b))%string).
Proof.
  unfold Samples.decode, string_of_list_byte. simpl. f_equal.
  induction a as [|x a IH]; simpl; [reflexivity|]. now rewrite IH.
Qed.

Lemma sample_decode_LF (dec : unit) (bs : list byte) :
  Js.ends_with_LF (snd (Samples.decode dec (bs ++ [Byte.x0a]))) = true.
Proof.
  unfold Samples.decode, string_of_list_byte. simpl.
  induction bs as [|x bs IH]; [reflexivity|].
  simpl. destruct (string_of_list_ascii (map ascii_of_byte (bs ++ [Byte.x0a]))) eqn:E.
  - destruct bs; discriminate E.
  - exact IH.
Qed.

Lemma reader_rechunking_noop_witness :
  read_loop Samples.decode (ChatPage.process_line Samples.parse) Samples.body2
    (mkReading tt EmptyString Samples.typed)
  = read_loop Samples.decode (ChatPage.process_line Samples.parse) Samples.body1
      (mkReading tt EmptyString Samples.typed).
Proof.
  refine (proj1 (proj2 (proj2 (proj2
            (reader_rechunking_noop Samples.decode tt Samples.parse
               (fun _ => eq_refl) sample_decode_app sample_decode_LF
               Samples.body1 Samples.body2 Samples.typed _ _))))).
  - reflexivity.
  - exists (Samples.bytes ("THel" ++ Samples.nl ++ "Tlo" ++ Samples.nl ++ "E")).
    reflexivity.
Defined.

Lemma load_created_thread_shows_greeting_witness :
  ChatPage.messages
    (ChatPage.loadThread "t3" (Resolved (Some []))
       (ChatPage.createNewThread (Resolved Samples.newest) Samples.with_threads))
  = [ChatPage.greeting].
Proof.
  refine (proj1 (proj2
            (proj2 (proj2 (proj2
               (load_created_thread_shows_greeting "t3" Samples.with_threads)))
               "New Thread" (Resolved (Some [])) _))).
  right. right. reflexivity.
Defined.

Lemma thread_list_newest_first_witness :
  ChatPage.threads (ChatPage.createNewThread (Resolved Samples.newest) Samples.with_threads)
  = [Samples.newest; Samples.newer; Samples.older]
  /\ ChatPage.newest_first Samples.created
       (ChatPage.threads
          (ChatPage.createNewThread (Resolved Samples.newest) Samples.with_threads)).
Proof.
  refine (proj1 (thread_list_newest_first Samples.parse Samples.decode tt Samples.created
                   Samples.newest Samples.with_threads _ _)).
  - repeat constructor.
  - repeat constructor.
Defined.


Lemma chart_selected_by_type_in_widget_witness :
  AgentChat.render_charts
    (AgentChat.mkMessage "agent" "Forecast for M1" (Some [3; 4]) (Some "forecast") None)
  = [ForecastChart [3; 4]].
Proof.
  refine (proj2 (proj1 (proj2
            (chart_selected_by_type_in_widget
               (AgentChat.mkMessage "agent" "Forecast for M1" (Some [3; 4])
                  (Some "forecast") None)
               [3; 4] _ _))) _); reflexivity.
Defined.

Lemma machine_status_from_latest_witness :
  MachineCard.status
    (MachineCard.fetchMetrics
       (Resolved [MachineCard.mkMetric (MachineCard.Finite (1 # 2));
                  MachineCard.mkMetric (MachineCard.Finite (9 # 10))])
       MachineCard.initial)
  = "warning".
Proof.
  refine (proj2 (proj1 (proj2
            (machine_status_from_latest
               [MachineCard.mkMetric (MachineCard.Finite (1 # 2));
                MachineCard.mkMetric (MachineCard.Finite (9 # 10))]
               (MachineCard.mkMetric (MachineCard.Finite (9 # 10)))
               MachineCard.initial _))) _).
  - reflexivity.
  - split; reflexivity.
Defined.

(** * Further properties of the components *)

(** ** Trimming and splitting *)

Section TextFacts.

Lemma trimStart_blank (s : string) :
  Js.blank s = true -> Js.trimStart s = EmptyString.
Proof.
  induction s as [|c r IH]; simpl; [reflexivity|].
  intros H. apply andb_true_iff in H. destruct H as [Hc Hr].
  rewrite Hc. now apply IH.
Qed.

Lemma trimStart_not_blank (s : string) :
  Js.blank s = false ->
  exists c r, Js.trimStart s = String c r /\ Js.is_white c = false.
Proof.
  induction s as [|c r IH]; simpl; [discriminate|].
  destruct (Js.is_white c) eqn:Hc; simpl.
  - exact IH.
  - intros _. now exists c, r.
Qed.

Lemma trimEnd_keeps_head (c : ascii) (r : string) :
  Js.is_white c = false -> Js.is_empty (Js.trimEnd (String c r)) = false.
Proof.
  intros Hc. simpl. destruct (Js.trimEnd r); [now rewrite Hc|reflexivity].
Qed.

(** The two skip tests, [!line.trim()] on the raw line and on the trimmed
    line, agree. *)
Lemma trim_empty_blank (s : string) : Js.is_empty (Js.trim s) = Js.blank s.
Proof.
  unfold Js.trim. destruct (Js.blank s) eqn:B.
  - now rewrite trimStart_blank.
  - destruct (trimStart_not_blank s B) as (c & r & -> & Hc).
    now apply trimEnd_keeps_head.
Qed.

(** A string in one piece has no line feed in it. *)
Lemma split_single_cons (c : ascii) (r : string) :
  Js.split (String c r) = [String c r] ->
  Ascii.eqb c Js.LF = false /\ Js.split r = [r].
Proof.
  destruct (Ascii.eqb c Js.LF) eqn:Hc.
  - simpl. rewrite Hc. intros H. injection H as _ H.
    now destruct (split_not_nil r).
  - rewrite split_String_other by assumption.
    destruct (Js.split r) as [|h t] eqn:E; [now destruct (split_not_nil r)|].
    simpl. intros H. injection H as H1 H2. subst. now split.
Qed.

(** Appending to a string in one piece extends the first piece. *)
Lemma split_single_app (a b : string) :
  Js.split a = [a] ->
  Js.split (a ++ b)
  = (a ++ hd EmptyString (Js.split b))%string :: tl (Js.split b).
Proof.
  induction a as [|c r IH]; intros Ha.
  - simpl. destruct (Js.split b) eqn:E; [now destruct (split_not_nil b)|reflexivity].
  - destruct (split_single_cons c r Ha) as [Hc Hr].
    change (String c r ++ b)%string with (String c (r ++ b)).
    rewrite split_String_other by assumption.
    rewrite (IH Hr). reflexivity.
Qed.

Lemma split_single_app_single (a b : string) :
  Js.split a = [a] -> Js.split b = [b] -> Js.split (a ++ b) = [(a ++ b)%string].
Proof. intros Ha Hb. rewrite (split_single_app a b Ha), Hb. reflexivity. Qed.

(** Text after the last line feed does not change the complete lines. *)
Lemma pop_rest_split_tail (text tail : string) :
  Js.split tail = [tail] ->
  Js.pop_rest (Js.split (text ++ tail)) = Js.pop_rest (Js.split text).
Proof.
  intros Ht. rewrite split_app.
  rewrite (split_single_app_single _ tail (split_pop_value text) Ht).
  unfold Js.pop_rest at 1. rewrite removelast_last. reflexivity.
Qed.

(** A final line feed closes the pending line and opens an empty one. *)
Lemma split_final_LF (text : string) :
  Js.split (text ++ String Js.LF EmptyString) = Js.split text ++ [EmptyString].
Proof.
  rewrite split_app.
  rewrite (split_single_app _ (String Js.LF EmptyString) (split_pop_value text)).
  simpl. rewrite append_empty_r.
  rewrite (app_removelast_last EmptyString (split_not_nil text)) at 3.
  unfold Js.pop_rest, Js.pop_value. now rewrite <- app_assoc.
Qed.

End TextFacts.

(** ** The chat page: what a submission leaves behind *)

Section ChatSubmission.

Context {point D : Type}.
Variable JSON_parse : string -> option (ChatPage.data point).
Variable decode : D -> list byte -> D * string.
Variable new_TextDecoder : D.

Abbreviation cstate := (ChatPage.state point).
Abbreviation cmessage := (ChatPage.message point).
Abbreviation cprocess := (ChatPage.process_line JSON_parse).
Abbreviation crun := (ChatPage.run_stream JSON_parse decode new_TextDecoder).
Abbreviation csubmit := (ChatPage.handleSubmit JSON_parse decode new_TextDecoder).

(** The reader of the chat page parses the lines that a line feed closes,
    in order, and nothing else: whatever follows the last line feed stays
    in the buffer and is never parsed. A body without any line feed
    changes nothing, and a body extended by text without a line feed gives
    the same state. *)
Theorem unterminated_line_is_dropped
    (chunks chunks2 : list (list byte)) (tail : string) (st : cstate) :
  Js.split tail = [tail] ->
  decoded decode new_TextDecoder chunks2
  = (decoded decode new_TextDecoder chunks ++ tail)%string ->
  let text := decoded decode new_TextDecoder chunks in
  crun (ChatPage.Body chunks false) st
  = for_lines cprocess (Js.pop_rest (Js.split text)) st
  /\ crun (ChatPage.Body chunks2 false) st = crun (ChatPage.Body chunks false) st
  /\ (Js.split text = [text] -> crun (ChatPage.Body chunks false) st = st).
Proof.
  intros Htail H2 text.
  assert (R : forall cs,
             crun (ChatPage.Body cs false) st
             = for_lines cprocess
                 (Js.pop_rest (Js.split (decoded decode new_TextDecoder cs))) st).
  { intros cs. simpl.
    destruct (read_loop_join decode cprocess cs new_TextDecoder EmptyString st eq_refl)
      as [_ Hc]. exact Hc. }
  split; [apply R|split].
  - rewrite !R, H2. now rewrite pop_rest_split_tail.
  - intros H1. rewrite R. fold text. now rewrite H1.
Qed.

(** Events only ever add agent messages behind what was displayed. *)
Lemma dispatch_keeps_agent_tail (base : list cmessage)
    (d : ChatPage.data point) (s : cstate) :
  ChatPage.idle_last base ->
  (exists tail, ChatPage.messages s = base ++ tail
                /\ Forall (fun m => ChatPage.role m = "agent") tail) ->
  exists tail, ChatPage.messages (ChatPage.dispatch d s) = base ++ tail
               /\ Forall (fun m => ChatPage.role m = "agent") tail.
Proof.
  intros Hidle (tail & Hs & Hall).
  assert (Hsnoc : forall x : cmessage,
             ChatPage.role x = "agent" ->
             exists tail', (base ++ tail) ++ [x] = base ++ tail'
                           /\ Forall (fun m => ChatPage.role m = "agent") tail').
  { intros x Hx. exists (tail ++ [x]). split; [now rewrite app_assoc|].
    apply Forall_app. split; [assumption|now constructor]. }
  unfold ChatPage.dispatch.
  repeat match goal with
         | |- context [if strict_eq ?a ?b then _ else _] => destruct (strict_eq a b)
         end; simpl; try (exists tail; now split); rewrite Hs.
  - destruct tail as [|m tail _] using rev_ind.
    + unfold ChatPage.append_token. rewrite app_nil_r in *.
      destruct (Js.last_elem base) as [m|] eqn:E.
      * rewrite (Hidle m E), andb_false_r.
        destruct (Hsnoc (ChatPage.mkMessage "agent" (ChatPage.data_content d) None (Some true))
                    eq_refl) as (t & Ht & Hf).
        rewrite ?app_nil_r in Ht. now exists t.
      * destruct (Hsnoc (ChatPage.mkMessage "agent" (ChatPage.data_content d) None (Some true))
                    eq_refl) as (t & Ht & Hf).
        rewrite ?app_nil_r in Ht. now exists t.
    + apply Forall_app in Hall. destruct Hall as [Ht Hm].
      inversion Hm as [|? ? Hrole _]; subst.
      unfold ChatPage.append_token.
      rewrite (app_assoc base tail [m]), last_elem_snoc, slice_init_snoc.
      destruct (_ && _).
      * exists (tail ++ [ChatPage.mkMessage (ChatPage.role m)
                           (ChatPage.content m ++ ChatPage.data_content d)
                           (ChatPage.chart_data m) (ChatPage.streaming m)]).
        split; [now rewrite app_assoc|].
        apply Forall_app. split; [assumption|now constructor].
      * rewrite <- (app_assoc base tail [m]).
        apply Hsnoc. reflexivity.
  - destruct tail as [|m tail _] using rev_ind.
    + rewrite app_nil_r. exists []. rewrite app_nil_r. split; [|constructor].
      now apply finalize_idle.
    + apply Forall_app in Hall. destruct Hall as [Ht Hm].
      inversion Hm as [|? ? Hrole _]; subst.
      unfold ChatPage.finalize.
      rewrite (app_assoc base tail [m]), last_elem_snoc, slice_init_snoc.
      destruct (truthy_flag _).
      * exists (tail ++ [ChatPage.mkMessage (ChatPage.role m) (ChatPage.content m)
                           (ChatPage.chart_data m) (Some false)]).
        split; [now rewrite app_assoc|].
        apply Forall_app. split; [assumption|now constructor].
      * exists (tail ++ [m]). split; [now rewrite app_assoc|].
        apply Forall_app. split; [assumption|now constructor].
  - apply Hsnoc. reflexivity.
  - apply Hsnoc. reflexivity.
Qed.

Lemma run_stream_agent_tail (base : list cmessage) (s : ChatPage.stream) (st : cstate) :
  ChatPage.idle_last base ->
  ChatPage.messages st = base ->
  exists tail, ChatPage.messages (crun s st) = base ++ tail
               /\ Forall (fun m => ChatPage.role m = "agent") tail.
Proof.
  intros Hidle Hst.
  assert (Hread : forall chunks,
             exists tail,
               ChatPage.messages
                 (current (read_loop decode cprocess chunks
                             (mkReading new_TextDecoder EmptyString st)))
               = base ++ tail
               /\ Forall (fun m => ChatPage.role m = "agent") tail).
  { intros chunks.
    apply (read_loop_invariant decode cprocess
             (fun s => exists tail, ChatPage.messages s = base ++ tail
                                    /\ Forall (fun m => ChatPage.role m = "agent") tail)).
    - intros line s0 Hs0.
      destruct (process_line_cases JSON_parse line s0) as [->|[d ->]]; [assumption|].
      now apply dispatch_keeps_agent_tail.
    - exists []. simpl. rewrite app_nil_r. now split. }
  destruct s as [|n|chunks broken]; simpl.
  - rewrite Hst. eexists. split; [reflexivity|now repeat constructor].
  - rewrite Hst. eexists. split; [reflexivity|now repeat constructor].
  - destruct (Hread chunks) as (tail & Ht & Hall). destruct broken.
    + simpl. rewrite Ht, <- app_assoc. eexists. split; [reflexivity|].
      apply Forall_app. split; [assumption|now repeat constructor].
    + now exists tail.
Qed.

Lemma report_question_after (ms tail : list cmessage) (m : cmessage) :
  ChatPage.report_question (ms ++ m :: tail) (length ms + 1)
  = if String.eqb (ChatPage.role m) "user" then ChatPage.content m
    else "Analysis Result".
Proof.
  unfold ChatPage.report_question.
  replace (length ms + 1 =? 0) with false by (symmetry; apply Nat.eqb_neq; rewrite Nat.add_1_r; discriminate).
  replace (length ms + 1 - 1) with (length ms) by (rewrite Nat.add_sub; reflexivity).
  rewrite nth_error_app2 by apply Nat.le_refl.
  now rewrite Nat.sub_diag.
Qed.

(** A submission appends the user's message once and, behind it, agent
    messages only: it never rewrites what was displayed and never adds a
    message in the user's name. The input box ends empty. The report of
    the first reply carries the question that was typed; the report of a
    further reply of the same submission is titled "Analysis Result". *)
Theorem submission_appends_question_then_replies
    (net : ChatPage.network) (st : cstate) :
  Js.blank (ChatPage.input st) = false ->
  let final := csubmit net st in
  let n := length (ChatPage.messages st) in
  ChatPage.input final = ""
  /\ exists replies,
       ChatPage.messages final
       = ChatPage.messages st
         ++ ChatPage.mkMessage "user" (ChatPage.input st) None None :: replies
       /\ Forall (fun m => ChatPage.role m = "agent") replies
       /\ ChatPage.report_question (ChatPage.messages final) (n + 1)
          = ChatPage.input st
       /\ (forall k, 1 <= k -> k < length replies ->
                     ChatPage.report_question (ChatPage.messages final) (n + 1 + k)
                     = "Analysis Result").
Proof.
  intros Hin final n.
  set (user := ChatPage.mkMessage (point := point) "user" (ChatPage.input st) None None).
  set (start := ChatPage.stream_start (ChatPage.create_res net) st).
  assert (Hfinal : final
                   = ChatPage.finally_submit (ChatPage.refresh_res net)
                       (crun (ChatPage.stream_res net) start)).
  { unfold final, ChatPage.handleSubmit. now rewrite Hin. }
  assert (Hstart : ChatPage.messages start = ChatPage.messages st ++ [user])
    by apply stream_start_messages.
  assert (Hidle : ChatPage.idle_last (ChatPage.messages st ++ [user])).
  { intros m. rewrite last_elem_snoc. now intros [= <-]. }
  destruct (run_stream_agent_tail _ (ChatPage.stream_res net) start Hidle Hstart)
    as (replies & Hm & Hall).
  destruct (finally_submit_cells (ChatPage.refresh_res net)
              (crun (ChatPage.stream_res net) start)) as (Hmsg & _ & _).
  rewrite <- Hfinal in Hmsg. rewrite Hm, <- app_assoc in Hmsg. simpl in Hmsg.
  split.
  - rewrite Hfinal. unfold ChatPage.finally_submit.
    assert (Hinput : ChatPage.input (crun (ChatPage.stream_res net) start) = "").
    { destruct (ChatPage.stream_res net) as [|c|chunks broken]; simpl.
      - unfold start, ChatPage.stream_start, ChatPage.auto_create.
        destruct (ChatPage.no_thread _); [destruct (ChatPage.create_res net)|]; reflexivity.
      - unfold start, ChatPage.stream_start, ChatPage.auto_create.
        destruct (ChatPage.no_thread _); [destruct (ChatPage.create_res net)|]; reflexivity.
      - assert (G : ChatPage.input
                      (current (read_loop decode cprocess chunks
                                  (mkReading new_TextDecoder EmptyString start))) = "").
        { apply (read_loop_invariant decode cprocess (fun s => ChatPage.input s = "")).
          - intros line s0 Hs0.
            destruct (process_line_cases JSON_parse line s0) as [->|[d ->]]; [assumption|].
            destruct (dispatch_threads d s0) as (_ & _ & _ & ->). exact Hs0.
          - simpl. unfold start, ChatPage.stream_start, ChatPage.auto_create.
            destruct (ChatPage.no_thread _); [destruct (ChatPage.create_res net)|];
              reflexivity. }
        destruct broken; exact G. }
    destruct (ChatPage.refresh_res net); exact Hinput.
  - exists replies. split; [exact Hmsg|]. split; [exact Hall|]. split.
    + rewrite Hmsg. unfold n. now rewrite report_question_after.
    + intros k Hk1 Hk2. rewrite Hmsg. unfold n.
      destruct k as [|k]; [inversion Hk1|].
      destruct (nth_error replies k) as [r|] eqn:Er.
      2:{ apply nth_error_None in Er.
          exfalso. apply (Nat.lt_irrefl (S k)).
          eapply Nat.lt_le_trans; [exact Hk2|].
          eapply Nat.le_trans; [exact Er|]. apply Nat.le_succ_diag_r. }
      destruct (nth_error_split _ _ Er) as (l1 & l2 & -> & Hl1).
      replace (ChatPage.messages st ++ user :: l1 ++ r :: l2)
        with ((ChatPage.messages st ++ user :: l1) ++ r :: l2)
        by (rewrite <- app_assoc; reflexivity).
      destruct l2 as [|r2 l2].
      { exfalso. rewrite length_app in Hk2. simpl in Hk2.
        rewrite Hl1, Nat.add_1_r in Hk2. now apply Nat.lt_irrefl in Hk2. }
      replace (length (ChatPage.messages st) + 1 + S k)
        with (length (ChatPage.messages st ++ user :: l1) + 1)
        by (rewrite length_app; simpl; rewrite Hl1, <- !Nat.add_assoc; simpl;
            rewrite !Nat.add_succ_r, Nat.add_0_r; reflexivity).
      rewrite report_question_after.
      apply Forall_app in Hall. destruct Hall as [_ Hr].
      inversion Hr; subst.
      match goal with H : ChatPage.role r = "agent" |- _ => now rewrite H end.
Qed.

End ChatSubmission.

(** ** The chat page: the active thread *)

Section ChatActiveThread.

Context {point D : Type}.
Variable JSON_parse : string -> option (ChatPage.data point).
Variable decode : D -> list byte -> D * string.
Variable new_TextDecoder : D.

Abbreviation astate := (ChatPage.state point).
Abbreviation asubmit := (ChatPage.handleSubmit JSON_parse decode new_TextDecoder).

Lemma run_stream_active (s : ChatPage.stream) (st : astate) :
  ChatPage.activeThreadId (ChatPage.run_stream JSON_parse decode new_TextDecoder s st)
  = ChatPage.activeThreadId st
  /\ ChatPage.threads (ChatPage.run_stream JSON_parse decode new_TextDecoder s st)
     = ChatPage.threads st.
Proof.
  destruct s as [|n|chunks broken]; simpl; try (now split).
  assert (G : ChatPage.activeThreadId
                (current (read_loop decode (ChatPage.process_line JSON_parse) chunks
                            (mkReading new_TextDecoder EmptyString st)))
              = ChatPage.activeThreadId st
              /\ ChatPage.threads
                   (current (read_loop decode (ChatPage.process_line JSON_parse) chunks
                               (mkReading new_TextDecoder EmptyString st)))
                 = ChatPage.threads st).
  { apply (read_loop_invariant decode (ChatPage.process_line JSON_parse)
             (fun x => ChatPage.activeThreadId x = ChatPage.activeThreadId st
                       /\ ChatPage.threads x = ChatPage.threads st)); [|now split].
    intros line x [Hx1 Hx2].
    destruct (process_line_threads JSON_parse line x) as [-> ->]. now split. }
  destruct broken; exact G.
Qed.

(** A submission never leaves the active thread: with a thread active,
    no thread is created and the active id is kept whatever the network
    does; with none, the thread that the server creates becomes active, and
    when the creation fails the page stays without an active thread. *)
Theorem submission_keeps_active_thread (net : ChatPage.network) (st : astate) :
  Js.blank (ChatPage.input st) = false ->
  let final := asubmit net st in
  (ChatPage.no_thread (ChatPage.activeThreadId st) = false ->
   ChatPage.activeThreadId final = ChatPage.activeThreadId st
   /\ (ChatPage.refresh_res net = Rejected ->
       ChatPage.threads final = ChatPage.threads st))
  /\ (ChatPage.no_thread (ChatPage.activeThreadId st) = true ->
      forall d, ChatPage.create_res net = Resolved d ->
                ChatPage.activeThreadId final = Some (ChatPage.thread_id d))
  /\ (ChatPage.no_thread (ChatPage.activeThreadId st) = true ->
      ChatPage.create_res net = Rejected ->
      ChatPage.activeThreadId final = ChatPage.activeThreadId st).
Proof.
  intros Hin final.
  assert (Hfinal : ChatPage.activeThreadId final
                   = ChatPage.activeThreadId
                       (ChatPage.stream_start (ChatPage.create_res net) st)
                   /\ (ChatPage.refresh_res net = Rejected ->
                       ChatPage.threads final
                       = ChatPage.threads
                           (ChatPage.stream_start (ChatPage.create_res net) st))).
  { unfold final, ChatPage.handleSubmit. rewrite Hin. unfold ChatPage.finally_submit.
    destruct (run_stream_active (ChatPage.stream_res net)
                (ChatPage.stream_start (ChatPage.create_res net) st)) as [Ha Ht].
    split.
    - destruct (ChatPage.refresh_res net); simpl; exact Ha.
    - intros ->. simpl. exact Ht. }
  destruct Hfinal as [Ha Ht]. rewrite Ha.
  unfold ChatPage.stream_start, ChatPage.auto_create in *.
  split; [|split].
  - intros Hact. split.
    + now rewrite Hact.
    + intros Hr. rewrite (Ht Hr). now rewrite Hact.
  - intros Hact d Hd. now rewrite Hact, Hd.
  - intros Hact Hd. now rewrite Hact, Hd.
Qed.

Lemma in_filter_ids (tid a : string) (l : list ChatPage.thread) :
  In a (map ChatPage.thread_id l) -> a <> tid ->
  In a (map ChatPage.thread_id (filter (ChatPage.other_than tid) l)).
Proof.
  intros Hin Hne. apply in_map_iff in Hin. destruct Hin as (x & Hx & Hl).
  apply in_map_iff. exists x. split; [assumption|].
  apply filter_In. split; [assumption|].
  apply other_than_true. congruence.
Qed.

Lemma not_in_filter_ids (tid : string) (l : list ChatPage.thread) :
  ~ In tid (map ChatPage.thread_id (filter (ChatPage.other_than tid) l)).
Proof.
  intros Hin. apply in_map_iff in Hin. destruct Hin as (x & Hx & Hl).
  apply filter_In in Hl. destruct Hl as [_ Hl].
  apply other_than_true in Hl. contradiction.
Qed.

(** The active thread stays an entry of the side bar: creating a thread,
    loading a listed thread, resetting the chat and submitting a question
    keep it listed (for a submission, as long as the refresh at its end
    does not replace the list), and so does deleting a thread, unless the
    deleted thread is the active one and loading the next one fails. It
    is listed after the fetch on mount, whatever the requests return. *)
Theorem active_thread_stays_listed (st : astate) :
  ChatPage.active_listed st ->
  (forall res, ChatPage.active_listed (ChatPage.createNewThread res st))
  /\ (forall tid res,
        In tid (map ChatPage.thread_id (ChatPage.threads st)) ->
        ChatPage.active_listed (ChatPage.loadThread tid res st))
  /\ ChatPage.active_listed (ChatPage.handleResetChat st)
  /\ (forall tid del load,
        ChatPage.activeThreadId st <> Some tid \/ load <> Rejected ->
        ChatPage.active_listed (ChatPage.deleteThread tid del load st))
  /\ (forall net,
        ChatPage.refresh_res net = Rejected ->
        ChatPage.active_listed (asubmit net st))
  /\ (forall signed_in res load,
        ChatPage.active_listed
          (ChatPage.fetchThreads signed_in res load (ChatPage.initial (point := point)))).
Proof.
  intros Hst. unfold ChatPage.active_listed in *.
  split; [|split; [|split; [|split; [|split]]]].
  - intros [|d]; simpl; [assumption|]. now left.
  - intros tid [|data] Hin; simpl; [assumption|].
    destruct (ChatPage.has_items data); simpl; assumption.
  - exact Hst.
  - intros tid del load Hcase. unfold ChatPage.deleteThread.
    destruct del as [|u]; [assumption|].
    destruct (ChatPage.activeThreadId st) as [a|] eqn:Ea.
    + simpl strict_eq. destruct (String.eqb_spec a tid) as [->|Hne].
      * destruct Hcase as [Hc|Hc]; [now destruct Hc|].
        destruct (filter (ChatPage.other_than tid) (ChatPage.threads st))
          as [|first rest] eqn:E.
        -- simpl. exact I.
        -- destruct load as [|data]; [now destruct Hc|].
           simpl. destruct (ChatPage.has_items data); simpl; rewrite E; now left.
      * simpl. rewrite Ea. now apply in_filter_ids.
    + simpl. rewrite Ea. exact I.
  - intros net Hr. unfold ChatPage.handleSubmit.
    destruct (Js.blank (ChatPage.input st)); [assumption|].
    unfold ChatPage.finally_submit. rewrite Hr. simpl ChatPage.refreshThreads.
    destruct (run_stream_active (ChatPage.stream_res net)
                (ChatPage.stream_start (ChatPage.create_res net) st)) as [Ha Ht].
    cbn [ChatPage.activeThreadId ChatPage.threads ChatPage.setStatus ChatPage.setLoading].
    rewrite Ha, Ht.
    unfold ChatPage.stream_start, ChatPage.auto_create.
    destruct (ChatPage.no_thread (ChatPage.activeThreadId st)); [|exact Hst].
    destruct (ChatPage.create_res net) as [|d]; [exact Hst|].
    simpl. now left.
  - intros signed_in res load. unfold ChatPage.fetchThreads.
    destruct signed_in; simpl; [|exact I].
    destruct res as [|data]; [exact I|].
    destruct data as [[|first rest]|]; simpl; try exact I.
    destruct load as [|items]; simpl; [exact I|].
    destruct (ChatPage.has_items items); simpl; now left.
Qed.

(** The exception: when the active thread is deleted, other threads
    remain and the request that loads the next one is rejected, the page
    keeps the deleted thread as the active one, although it is no longer
    in the side bar, and keeps showing its messages. *)
Theorem deleted_thread_stays_active_when_load_fails
    (tid : string) (other : ChatPage.thread) (st : astate) :
  ChatPage.activeThreadId st = Some tid ->
  In other (ChatPage.threads st) ->
  ChatPage.thread_id other <> tid ->
  let st' := ChatPage.deleteThread tid (Resolved tt) Rejected st in
  ChatPage.activeThreadId st' = Some tid
  /\ ~ In tid (map ChatPage.thread_id (ChatPage.threads st'))
  /\ ~ ChatPage.active_listed st'
  /\ ChatPage.messages st' = ChatPage.messages st.
Proof.
  intros Ha Hin Hne st'.
  assert (E : st' = ChatPage.setThreads
                      (fun prev => filter (ChatPage.other_than tid) prev) st).
  { unfold st', ChatPage.deleteThread. rewrite Ha. simpl strict_eq.
    rewrite String.eqb_refl.
    destruct (filter (ChatPage.other_than tid) (ChatPage.threads st)) eqn:F;
      [|reflexivity].
    exfalso.
    assert (Hf : In other (filter (ChatPage.other_than tid) (ChatPage.threads st))).
    { apply filter_In. split; [assumption|now apply other_than_true]. }
    now rewrite F in Hf. }
  rewrite E. simpl.
  split; [exact Ha|]. split; [apply not_in_filter_ids|]. split; [|reflexivity].
  unfold ChatPage.active_listed. simpl. rewrite Ha. apply not_in_filter_ids.
Qed.

End ChatActiveThread.

(** ** The chat widget: reader, status bubbles and history *)

Section WidgetReader.

Context {point D : Type}.
Variable JSON_parse : string -> option (ChatPage.data point).
Variable decode : D -> list byte -> D * string.
Variable new_TextDecoder : D.

Abbreviation wstate := (AgentChat.state point).
Abbreviation wprocess := (AgentChat.process_line JSON_parse).
Abbreviation wread := (AgentChat.read_body JSON_parse decode new_TextDecoder).

Lemma widget_process_blank (line : string) (st : wstate) :
  Js.blank line = true -> wprocess line st = st.
Proof.
  intros H. unfold AgentChat.process_line. now rewrite trim_empty_blank, H.
Qed.

(** The widget parses every line of the text, the one after the last line
    feed included. *)
Lemma read_body_all_lines (chunks : list (list byte)) (st : wstate) :
  wread chunks st
  = for_lines wprocess (Js.split (decoded decode new_TextDecoder chunks)) st.
Proof.
  set (text := decoded decode new_TextDecoder chunks).
  set (r := read_loop decode wprocess chunks (mkReading new_TextDecoder EmptyString st)).
  assert (E : wread chunks st = wprocess (buffer r) (current r)) by reflexivity.
  destruct (read_loop_join decode wprocess chunks new_TextDecoder EmptyString st eq_refl)
    as [Hb Hc].
  cbv zeta in Hb, Hc. simpl append in Hb, Hc. fold text r in Hb, Hc.
  rewrite E, Hb, Hc.
  assert (S : Js.split text = Js.pop_rest (Js.split text) ++ [Js.pop_value (Js.split text)]).
  { apply app_removelast_last, split_not_nil. }
  rewrite S at 3. now rewrite for_lines_app.
Qed.

(** In the widget the line feed after the last event is optional: the
    reader parses every line of the response, also the one that no line
    feed closes, so a response and the same response followed by a line
    feed give the same messages; and the state only depends on the decoded
    text, not on how the bytes were cut. *)
Theorem widget_reads_unterminated_line
    (chunks chunks2 chunks3 : list (list byte)) (st : wstate) :
  decoded decode new_TextDecoder chunks2
  = (decoded decode new_TextDecoder chunks ++ String Js.LF EmptyString)%string ->
  decoded decode new_TextDecoder chunks3 = decoded decode new_TextDecoder chunks ->
  wread chunks st
  = for_lines wprocess (Js.split (decoded decode new_TextDecoder chunks)) st
  /\ wread chunks2 st = wread chunks st
  /\ wread chunks3 st = wread chunks st.
Proof.
  intros H2 H3. rewrite !read_body_all_lines. split; [reflexivity|split].
  - rewrite H2, split_final_LF, for_lines_app. simpl.
    now apply widget_process_blank.
  - now rewrite H3.
Qed.

End WidgetReader.

Section WidgetStatus.

Context {point : Type}.

Abbreviation wmessage := (AgentChat.message point).
Abbreviation wdata := (ChatPage.data point).

(** A status bubble with its text replaced. *)
Abbreviation retitled m c :=
  (AgentChat.mkMessage (AgentChat.role m) c (AgentChat.chart_data m)
     (AgentChat.chart_type m) (AgentChat.isStatus m)).

Lemma apply_status_on_status (d : wdata) (ms : list wmessage) (m : wmessage) :
  ChatPage.data_type d = Some "status" ->
  AgentChat.is_status m = true ->
  AgentChat.apply_data d (ms ++ [m]) = ms ++ [retitled m (ChatPage.data_content d)].
Proof.
  intros Hd Hm. unfold AgentChat.apply_data, AgentChat.processStreamData.
  rewrite Hd. simpl. rewrite last_elem_snoc, slice_init_snoc.
  unfold AgentChat.is_status in Hm. now rewrite Hm.
Qed.

Lemma apply_status_fresh (d : wdata) (prev : list wmessage) :
  ChatPage.data_type d = Some "status" ->
  AgentChat.status_last prev = false ->
  AgentChat.apply_data d prev
  = prev ++ [AgentChat.mkMessage "system" (ChatPage.data_content d) None None (Some true)].
Proof.
  intros Hd Hp. unfold AgentChat.apply_data, AgentChat.processStreamData.
  rewrite Hd. simpl. unfold AgentChat.status_last, AgentChat.is_status in Hp.
  destruct (Js.last_elem prev); [now rewrite Hp|reflexivity].
Qed.

Lemma status_run_on_status (ds : list wdata) :
  forall (d : wdata) (ms : list wmessage) (m : wmessage),
    Forall (fun e => ChatPage.data_type e = Some "status") (ds ++ [d]) ->
    AgentChat.is_status m = true ->
    AgentChat.for_data (ds ++ [d]) (ms ++ [m])
    = ms ++ [retitled m (ChatPage.data_content d)].
Proof.
  induction ds as [|e ds IH]; intros d ms m Hall Hm.
  - inversion Hall; subst. simpl. now apply apply_status_on_status.
  - inversion Hall; subst.
    change (AgentChat.for_data ((e :: ds) ++ [d]) (ms ++ [m]))
      with (AgentChat.for_data (ds ++ [d]) (AgentChat.apply_data e (ms ++ [m]))).
    rewrite apply_status_on_status by assumption.
    now rewrite IH.
Qed.

(** Progress reports overwrite one another: a run of [status] events
    leaves a single status bubble, with the text of the last event. It is
    a new bubble at the end of the list when the list did not end with
    one, and otherwise the bubble that was there, retitled. *)
Theorem widget_status_run_is_one_bubble
    (ds : list wdata) (d : wdata) (prev : list wmessage) :
  Forall (fun e => ChatPage.data_type e = Some "status") (ds ++ [d]) ->
  let shown := AgentChat.for_data (ds ++ [d]) prev in
  (AgentChat.status_last prev = false ->
   shown = prev ++ [AgentChat.mkMessage "system" (ChatPage.data_content d)
                      None None (Some true)])
  /\ (forall ms m,
        prev = ms ++ [m] -> AgentChat.is_status m = true ->
        shown = ms ++ [retitled m (ChatPage.data_content d)]).
Proof.
  intros Hall shown. split.
  - intros Hp. unfold shown. destruct ds as [|e ds].
    + inversion Hall; subst. simpl. now apply apply_status_fresh.
    + inversion Hall; subst.
      change (AgentChat.for_data ((e :: ds) ++ [d]) prev)
        with (AgentChat.for_data (ds ++ [d]) (AgentChat.apply_data e prev)).
      rewrite apply_status_fresh by assumption.
      now rewrite status_run_on_status.
  - intros ms m -> Hm. unfold shown. now apply status_run_on_status.
Qed.

Lemma last_elem_cons {A} (a : A) (l : list A) :
  l <> [] -> Js.last_elem (a :: l) = Js.last_elem l.
Proof.
  intros Hl. destruct (exists_last Hl) as (l' & x & ->).
  change (a :: l' ++ [x]) with ((a :: l') ++ [x]).
  now rewrite !last_elem_snoc.
Qed.

Lemma stacked_snoc (l : list wmessage) (x : wmessage) :
  AgentChat.stacked_status (l ++ [x])
  = AgentChat.stacked_status l || (AgentChat.status_last l && AgentChat.is_status x).
Proof.
  induction l as [|a l IH]; [reflexivity|].
  destruct l as [|b l].
  - simpl. unfold AgentChat.status_last. simpl. apply orb_false_r.
  - change (AgentChat.stacked_status ((a :: b :: l) ++ [x]))
      with ((AgentChat.is_status a && AgentChat.is_status b)
            || AgentChat.stacked_status ((b :: l) ++ [x])).
    rewrite IH.
    change (AgentChat.stacked_status (a :: b :: l))
      with ((AgentChat.is_status a && AgentChat.is_status b)
            || AgentChat.stacked_status (b :: l)).
    unfold AgentChat.status_last.
    rewrite (last_elem_cons a (b :: l)) by discriminate.
    now rewrite orb_assoc.
Qed.

Lemma apply_data_not_stacked (d : wdata) (prev : list wmessage) :
  AgentChat.stacked_status prev = false ->
  AgentChat.stacked_status (AgentChat.apply_data d prev) = false.
Proof.
  intros Hp. unfold AgentChat.apply_data, AgentChat.processStreamData.
  destruct (strict_eq (ChatPage.data_type d) "answer").
  { rewrite stacked_snoc, Hp. simpl. apply andb_false_r. }
  destruct (strict_eq (ChatPage.data_type d) "status").
  { destruct (Js.last_elem prev) as [m|] eqn:E.
    - destruct (truthy_flag (AgentChat.isStatus m)) eqn:F.
      + rewrite (last_elem_Some _ _ E) in Hp.
        rewrite stacked_snoc in Hp |- *.
        unfold AgentChat.is_status in *. simpl. exact Hp.
      + rewrite stacked_snoc, Hp. unfold AgentChat.status_last, AgentChat.is_status.
        now rewrite E, F.
    - rewrite stacked_snoc, Hp. unfold AgentChat.status_last. now rewrite E. }
  destruct (strict_eq (ChatPage.data_type d) "error").
  { rewrite stacked_snoc, Hp. simpl. apply andb_false_r. }
  exact Hp.
Qed.

Lemma history_cons (m : wmessage) (msgs : list wmessage) :
  AgentChat.history (m :: msgs)
  = if String.eqb (AgentChat.role m) "system" then AgentChat.history msgs
    else AgentChat.mkTurn
           (if String.eqb (AgentChat.role m) "agent" then "assistant"
            else AgentChat.role m)
           (AgentChat.content m) :: AgentChat.history msgs.
Proof.
  unfold AgentChat.history. simpl.
  destruct (String.eqb_spec (AgentChat.role m) "agent") as [->|Ha]; [reflexivity|].
  now destruct (String.eqb (AgentChat.role m) "system").
Qed.

(** The history sent with a question holds the user's and the agent's
    messages in their order, the agent's under the role [assistant]: no
    entry has the role [system] or [agent], so no status bubble is ever
    sent back to the server, and no content is altered. *)
Theorem widget_history_skips_status (msgs : list wmessage) :
  Forall (fun t => AgentChat.turn_role t <> "system"
                   /\ AgentChat.turn_role t <> "agent") (AgentChat.history msgs)
  /\ map AgentChat.turn_content (AgentChat.history msgs)
     = map AgentChat.content
         (filter (fun m => negb (String.eqb (AgentChat.role m) "system")) msgs)
  /\ (forall m, In m msgs -> AgentChat.role m = "agent" ->
                In (AgentChat.mkTurn "assistant" (AgentChat.content m))
                   (AgentChat.history msgs))
  /\ (forall m, In m msgs -> AgentChat.role m = "user" ->
                In (AgentChat.mkTurn "user" (AgentChat.content m))
                   (AgentChat.history msgs)).
Proof.
  induction msgs as [|m msgs (IH1 & IH2 & IH3 & IH4)].
  - repeat split; try constructor; intros m [].
  - rewrite history_cons. simpl filter.
    destruct (String.eqb_spec (AgentChat.role m) "system") as [Hs|Hs]; simpl.
    + repeat split; try assumption.
      * intros x [<-|Hx] Hr; [congruence|now apply IH3].
      * intros x [<-|Hx] Hr; [congruence|now apply IH4].
    + repeat split.
      * constructor; [|assumption]. simpl.
        destruct (String.eqb_spec (AgentChat.role m) "agent"); split; congruence.
      * now rewrite IH2.
      * intros x [<-|Hx] Hr; [left; now rewrite Hr|right; now apply IH3].
      * intros x [<-|Hx] Hr; [left; now rewrite Hr|right; now apply IH4].
Qed.

End WidgetStatus.

Section WidgetSubmission.

Context {point D : Type}.
Variable JSON_parse : string -> option (ChatPage.data point).
Variable decode : D -> list byte -> D * string.
Variable new_TextDecoder : D.

Abbreviation vstate := (AgentChat.state point).
Abbreviation vprocess := (AgentChat.process_line JSON_parse).

Lemma widget_process_line_not_stacked (line : string) (st : vstate) :
  AgentChat.stacked_status (AgentChat.messages st) = false ->
  AgentChat.stacked_status (AgentChat.messages (vprocess line st)) = false.
Proof.
  intros H. unfold AgentChat.process_line.
  destruct (Js.is_empty (Js.trim line)); [assumption|].
  destruct (JSON_parse (Js.trim line)) as [d|]; [|assumption].
  simpl. now apply apply_data_not_stacked.
Qed.

(** Status bubbles never pile up: whatever a response contains and
    however it ends, a submission leaves no two status bubbles next to each
    other if there were none before; the widget opens without any, and no
    sequence of events produces any. *)
Theorem widget_never_stacks_status (s : AgentChat.stream) (st : vstate) :
  AgentChat.stacked_status (AgentChat.messages st) = false ->
  AgentChat.stacked_status
    (AgentChat.messages
       (AgentChat.handleSubmit JSON_parse decode new_TextDecoder s st)) = false
  /\ (forall ds : list (ChatPage.data point),
        AgentChat.stacked_status (AgentChat.for_data ds (AgentChat.messages st))
        = false)
  /\ AgentChat.stacked_status
       (AgentChat.messages (AgentChat.initial (point := point))) = false.
Proof.
  intros Hst. split; [|split; [|reflexivity]].
  - unfold AgentChat.handleSubmit.
    destruct (Js.blank (AgentChat.input st)); [assumption|].
    simpl AgentChat.messages.
    assert (Hbegin : AgentChat.stacked_status
                       (AgentChat.messages (AgentChat.begin_submit st)) = false).
    { simpl. rewrite stacked_snoc, Hst. simpl. apply andb_false_r. }
    assert (Hloop : forall chunks,
               AgentChat.stacked_status
                 (AgentChat.messages
                    (current (read_loop decode vprocess chunks
                                (mkReading new_TextDecoder EmptyString
                                   (AgentChat.begin_submit st))))) = false).
    { intros chunks.
      apply (read_loop_invariant decode vprocess
               (fun s => AgentChat.stacked_status (AgentChat.messages s) = false));
        [|exact Hbegin].
      intros line s0. apply widget_process_line_not_stacked. }
    destruct s as [|chunks broken]; simpl AgentChat.run_stream.
    + simpl. rewrite stacked_snoc.
      change (AgentChat.stacked_status
                (AgentChat.messages st
                 ++ [AgentChat.mkMessage "user" (AgentChat.input st) None None None]))
        with (AgentChat.stacked_status (AgentChat.messages (AgentChat.begin_submit st))).
      rewrite Hbegin. simpl. apply andb_false_r.
    + destruct broken.
      * simpl. rewrite stacked_snoc, Hloop. simpl. apply andb_false_r.
      * change (AgentChat.read_body JSON_parse decode new_TextDecoder chunks
                  (AgentChat.begin_submit st))
          with (vprocess
                  (buffer (read_loop decode vprocess chunks
                             (mkReading new_TextDecoder EmptyString
                                (AgentChat.begin_submit st))))
                  (current (read_loop decode vprocess chunks
                              (mkReading new_TextDecoder EmptyString
                                 (AgentChat.begin_submit st))))).
        apply widget_process_line_not_stacked, Hloop.
  - intros ds. revert Hst. generalize (AgentChat.messages st).
    induction ds as [|d ds IH]; intros l Hl; [exact Hl|].
    simpl. apply IH. now apply apply_data_not_stacked.
Qed.

End WidgetSubmission.

(** ** The machine card over time *)

Section CardPolling.

Import MachineCard.

Lemma status_of_three (latest : metric) :
  In (status_of latest) ["running"; "warning"; "error"].
Proof.
  unfold status_of.
  destruct (gt (vibration latest) lit_1_0); [simpl; tauto|].
  destruct (gt (vibration latest) lit_0_8); simpl; tauto.
Qed.

(** What every state of the card satisfies. *)
Lemma fetchMetrics_keeps (res : response (list metric)) (st : state) :
  In (status st) ["running"; "warning"; "error"] ->
  (forall latest, Js.last_elem (metrics st) = Some latest ->
                  status st = status_of latest) ->
  In (status (fetchMetrics res st)) ["running"; "warning"; "error"]
  /\ (forall latest, Js.last_elem (metrics (fetchMetrics res st)) = Some latest ->
                     status (fetchMetrics res st) = status_of latest).
Proof.
  intros H1 H2. unfold fetchMetrics.
  destruct res as [|data]; [now split|].
  destruct (Js.last_elem data) as [x|] eqn:E.
  - rewrite (last_elem_length _ _ E). simpl. split; [apply status_of_three|].
    intros latest. rewrite E. now intros [= <-].
  - apply last_elem_None in E. subst data. simpl. split; [assumption|].
    intros latest H. discriminate H.
Qed.

(** However the successive requests of a card turn out, its status is one
    of [running], [warning] and [error], so the badge always has one of
    the three status classes and never the empty default; and whenever the
    card holds metrics, the status is the one of the latest record it
    holds. After the first request the card no longer shows as loading. *)
Theorem card_status_follows_metrics (outcomes : list (response (list metric))) :
  let st := polls outcomes initial in
  In (status st) ["running"; "warning"; "error"]
  /\ getStatusClass (status st) = ("status-" ++ status st)%string
  /\ getStatusClass (status st) <> ""
  /\ (forall latest, Js.last_elem (metrics st) = Some latest ->
                     status st = status_of latest)
  /\ (outcomes <> [] -> loading st = false).
Proof.
  intros st.
  assert (Inv : forall os s,
             In (status s) ["running"; "warning"; "error"] ->
             (forall latest, Js.last_elem (metrics s) = Some latest ->
                             status s = status_of latest) ->
             In (status (polls os s)) ["running"; "warning"; "error"]
             /\ (forall latest, Js.last_elem (metrics (polls os s)) = Some latest ->
                                status (polls os s) = status_of latest)).
  { induction os as [|o os IH]; intros s H1 H2; [now split|].
    simpl. destruct (fetchMetrics_keeps o s H1 H2) as [H3 H4]. now apply IH. }
  destruct (Inv outcomes initial) as [H1 H2].
  { simpl. tauto. }
  { intros latest H. discriminate H. }
  fold st in H1, H2.
  assert (Hclass : getStatusClass (status st) = ("status-" ++ status st)%string).
  { simpl in H1. destruct H1 as [<-|[<-|[<-|[]]]]; reflexivity. }
  repeat split; try assumption.
  - rewrite Hclass. discriminate.
  - intros Hne. unfold st.
    destruct outcomes as [|o os] using rev_ind; [congruence|].
    unfold polls. rewrite fold_left_app. reflexivity.
Qed.

End CardPolling.

(** ** The sensor chart *)

Section SensorColumns.

Import SensorChart.

Lemma find_first {A} (f : A -> bool) (l1 l2 : list A) (x : A) :
  (forall y, In y l1 -> f y = false) -> f x = true ->
  find f (l1 ++ x :: l2) = Some x.
Proof.
  intros H1 Hx. induction l1 as [|a l1 IH]; simpl.
  - now rewrite Hx.
  - rewrite (H1 a) by now left. apply IH. intros y Hy. apply H1. now right.
Qed.

(** The column that is plotted. A key given by the caller is used as it
    is. Otherwise the chart takes the first key of the first row that
    holds a number and is not, whatever its case, one of the metadata keys;
    it falls back on [value] when the data is missing or empty, when no
    key qualifies, or when the first that qualifies is the empty key. A
    detected key is never a metadata key. *)
Theorem value_key_is_first_numeric_column
    (valueKey : option string) (data : option (list row)) :
  let k := detectValueKey valueKey data in
  (forall v, valueKey = Some v -> v <> "" -> k = v)
  /\ (valueKey = None \/ valueKey = Some "" ->
      Js.array_includes metadataKeys (Js.toLowerCase k) = false
      /\ (k = "value"
          \/ exists firstRow rest,
               data = Some (firstRow :: rest)
               /\ In k (keys firstRow)
               /\ is_number (get firstRow k) = true)
      /\ (forall firstRow rest l1 key l2,
            data = Some (firstRow :: rest) ->
            keys firstRow = l1 ++ key :: l2 ->
            (forall x, In x l1 -> numeric_column firstRow x = false) ->
            numeric_column firstRow key = true ->
            k = if Js.is_empty key then "value" else key)
      /\ (data = None \/ data = Some [] -> k = "value")).
Proof.
  intros k. split.
  - intros v -> Hv. unfold k, detectValueKey.
    destruct v; [congruence|reflexivity].
  - intros Hauto.
    assert (E : k = match data with
                    | None | Some [] => "value"
                    | Some (firstRow :: _) =>
                        or_default (find (numeric_column firstRow) (keys firstRow)) "value"
                    end).
    { unfold k, detectValueKey. destruct Hauto as [-> | ->]; reflexivity. }
    clearbody k. subst k.
    split; [|split; [|split]].
    + destruct data as [[|firstRow rest]|]; try reflexivity.
      unfold or_default.
      destruct (find (numeric_column firstRow) (keys firstRow)) as [key|] eqn:F;
        [|reflexivity].
      destruct (Js.is_empty key); [reflexivity|].
      apply find_some in F. destruct F as [_ F]. unfold numeric_column in F.
      now destruct (Js.array_includes metadataKeys (Js.toLowerCase key)).
    + destruct data as [[|firstRow rest]|]; try (now left).
      unfold or_default.
      destruct (find (numeric_column firstRow) (keys firstRow)) as [key|] eqn:F;
        [|now left].
      destruct (Js.is_empty key); [now left|].
      right. exists firstRow, rest. apply find_some in F. destruct F as [Hin F].
      split; [reflexivity|]. split; [assumption|].
      unfold numeric_column in F.
      now destruct (Js.array_includes metadataKeys (Js.toLowerCase key)).
    + intros firstRow rest l1 key l2 -> Hk Hl1 Hkey.
      rewrite Hk, (find_first _ l1 l2 key Hl1 Hkey). reflexivity.
    + intros [-> | ->]; reflexivity.
Qed.

Variable toLocaleTimeString : value -> string.

Lemma point_row_get (tv : value * value) :
  get (point_row tv) "timestamp" = fst tv /\ get (point_row tv) "value" = snd tv.
Proof. now split. Qed.

(** The chart of a machine card. For the rows that the card builds from
    its metrics, one per record with the keys [timestamp] and [value], the
    chart always plots the [value] column against the [timestamp] column,
    whatever the fields hold: one label and one value per record, in the
    order of the records, the label being empty where the timestamp is
    missing. *)
Theorem card_rows_plot_value_by_timestamp
    (pts : list (value * value)) (label : option string) (color : string) :
  let data := Some (map point_row pts) in
  detectValueKey None data = "value"
  /\ detectTimestampKey data = "timestamp"
  /\ exists c,
       chartData toLocaleTimeString data label color None = Some c
       /\ dataset_data c = map snd pts
       /\ labels c
          = map (fun tv => if negb (truthy (fst tv)) then ""
                           else toLocaleTimeString (fst tv)) pts
       /\ length (labels c) = length (dataset_data c)
       /\ (forall l, label = Some l -> l <> "" -> dataset_label c = l)
       /\ (label = None -> dataset_label c = "value").
Proof.
  intros data.
  assert (Hv : detectValueKey None data = "value").
  { unfold data. destruct pts as [|[t v] rest]; [reflexivity|].
    simpl. unfold numeric_column. simpl. destruct (is_number v); reflexivity. }
  assert (Ht : detectTimestampKey data = "timestamp").
  { unfold data. destruct pts as [|[t v] rest]; [reflexivity|].
    simpl. destruct (truthy t); reflexivity. }
  split; [exact Hv|]. split; [exact Ht|].
  unfold chartData. rewrite Hv, Ht. unfold data.
  eexists. split; [reflexivity|]. simpl.
  rewrite !map_map.
  split; [apply map_ext; now intros [t v]|].
  split; [apply map_ext; now intros [t v]|].
  split; [now rewrite !length_map|].
  split.
  - intros l -> Hl. destruct l; [congruence|reflexivity].
  - now intros ->.
Qed.

End SensorColumns.

(** ** Sessions and routes *)

Section Sessions.

Import Auth.

Lemma step_mirror (st : state) (e : event) :
  token st = auth_token st -> token (step st e) = auth_token (step st e).
Proof.
  intros H. destruct e as [[|t]| |res|res]; simpl; try assumption; try reflexivity.
  - unfold token_effect. destruct (has_token st); [|exact H].
    destruct res; simpl; [reflexivity|exact H].
  - destruct res; simpl; [reflexivity|exact H].
Qed.

(** The token in memory and the token in [localStorage] never part:
    after any sequence of logins, logouts and answers of [/auth/me], in any
    order and whatever their outcome, the [token] cell holds exactly the
    stored [auth_token], so that reloading the page starts from the token
    the application was using. *)
Theorem token_mirrors_local_storage (stored : option string) (es : list event) :
  let st := run es (initial stored) in
  token st = auth_token st
  /\ token (initial (auth_token st)) = token st.
Proof.
  intros st.
  assert (H : token st = auth_token st).
  { unfold st, run. generalize (eq_refl : token (initial stored) = auth_token (initial stored)).
    generalize (initial stored).
    induction es as [|e es IH]; intros s Hs; [exact Hs|].
    simpl. apply IH. now apply step_mirror. }
  split; [exact H|]. simpl. now rewrite H.
Qed.

(** Start-up. Before the effect on the token has run, the protected routes
    show the loading screen. Once it has run, loading is over; the chat
    route shows the chat page exactly when a non-empty token was stored and
    [/auth/me] accepted it, and ends on the login page otherwise; a token
    that [/auth/me] rejects is removed from [localStorage]. A redirection
    never leads to another one. *)
Theorem startup_opens_chat_only_with_valid_token
    (stored : option string) (res : response user_t) (r : route) :
  let st := token_effect res (initial stored) in
  AppRoutes (initial stored) ChatRoute = LoadingScreen
  /\ loading st = false
  /\ (settle st ChatRoute = Page ChatRoute
      <-> has_token (initial stored) = true /\ exists u, res = Resolved u)
  /\ (settle st ChatRoute <> Page ChatRoute -> settle st ChatRoute = Page LoginRoute)
  /\ (has_token (initial stored) = true -> res = Rejected -> auth_token st = None)
  /\ (forall (s : state) (to : route), settle s r <> Navigate to).
Proof.
  intros st.
  split; [reflexivity|].
  assert (Hcases : (has_token (initial stored) = true /\ exists u, res = Resolved u)
                   /\ settle st ChatRoute = Page ChatRoute
                   \/ ~ (has_token (initial stored) = true /\ exists u, res = Resolved u)
                      /\ settle st ChatRoute = Page LoginRoute).
  { unfold st, token_effect.
    destruct (has_token (initial stored)) eqn:Ht.
    - destruct res as [|u].
      + right. split; [intros [_ [u Hu]]; discriminate Hu|reflexivity].
      + left. split; [split; [reflexivity|now exists u]|].
        unfold settle, AppRoutes, ProtectedRoute, isAuthenticated. simpl.
        unfold has_token in *. simpl in *. now rewrite Ht.
    - right. split; [intros [Hf _]; discriminate Hf|].
      unfold settle, AppRoutes, ProtectedRoute, isAuthenticated. simpl.
      unfold has_token in *. simpl in *. rewrite Ht. reflexivity. }
  split; [|split; [|split; [|split]]].
  - unfold st, token_effect. destruct (has_token (initial stored)); [|reflexivity].
    destruct res; reflexivity.
  - destruct Hcases as [[H1 H2]|[H1 H2]]; split; try tauto.
    rewrite H2. discriminate.
  - destruct Hcases as [[H1 H2]|[H1 H2]]; tauto.
  - intros Ht ->. unfold st, token_effect. now rewrite Ht.
  - intros s to. unfold settle, AppRoutes, ProtectedRoute.
    destruct r; destruct (loading s); destruct (isAuthenticated s) eqn:Ha;
      simpl; try rewrite Ha; simpl; discriminate.
Qed.

End Sessions.

(** ** The chat widget: what a submission leaves behind *)

Section WidgetReplies.

Context {point D : Type}.
Variable JSON_parse : string -> option (ChatPage.data point).
Variable decode : D -> list byte -> D * string.
Variable new_TextDecoder : D.

Abbreviation rstate := (AgentChat.state point).
Abbreviation rmessage := (AgentChat.message point).
Abbreviation rprocess := (AgentChat.process_line JSON_parse).
Abbreviation rsubmit := (AgentChat.handleSubmit JSON_parse decode new_TextDecoder).

(** The event is none of the three that the widget knows. *)
Abbreviation unknown_to_widget d :=
  (strict_eq (ChatPage.data_type d) "answer" = false
   /\ strict_eq (ChatPage.data_type d) "status" = false
   /\ strict_eq (ChatPage.data_type d) "error" = false).

Lemma apply_unknown (d : ChatPage.data point) (prev : list rmessage) :
  unknown_to_widget d -> AgentChat.apply_data d prev = prev.
Proof.
  intros (H1 & H2 & H3). unfold AgentChat.apply_data, AgentChat.processStreamData.
  now rewrite H1, H2, H3.
Qed.

(** The widget only knows [answer], [status] and [error]. A response
    streamed as [token] events closed by [answer_end], as the chat page
    expects it, shows nothing in the widget: when no line of the response
    parses to an event of one of the three known types, the submission
    ends with the user's question as the last message, without any reply
    or notice. *)
Theorem widget_shows_nothing_for_token_stream
    (chunks : list (list byte)) (st : rstate) :
  Js.blank (AgentChat.input st) = false ->
  (forall line d,
      In line (Js.split (decoded decode new_TextDecoder chunks)) ->
      JSON_parse (Js.trim line) = Some d ->
      ChatPage.data_type d <> Some "answer"
      /\ ChatPage.data_type d <> Some "status"
      /\ ChatPage.data_type d <> Some "error") ->
  AgentChat.messages (rsubmit (AgentChat.Body chunks false) st)
  = AgentChat.messages st
    ++ [AgentChat.mkMessage "user" (AgentChat.input st) None None None]
  /\ (forall ds : list (ChatPage.data point),
        Forall (fun d => ChatPage.data_type d = Some "token"
                         \/ ChatPage.data_type d = Some "answer_end"
                         \/ ChatPage.data_type d = Some "log") ds ->
        forall prev, AgentChat.for_data ds prev = prev).
Proof.
  intros Hin Hparse. split.
  - unfold AgentChat.handleSubmit. rewrite Hin. simpl AgentChat.messages.
    simpl AgentChat.run_stream. rewrite read_body_all_lines.
    assert (G : forall lines s,
               (forall l, In l lines ->
                          In l (Js.split (decoded decode new_TextDecoder chunks))) ->
               for_lines rprocess lines s = s).
    { induction lines as [|l lines IH]; intros s Hsub; [reflexivity|].
      simpl. rewrite <- (IH s) at 2; [|intros l' Hl'; apply Hsub; now right].
      f_equal.
      unfold AgentChat.process_line.
      destruct (Js.is_empty (Js.trim l)); [reflexivity|].
      destruct (JSON_parse (Js.trim l)) as [d|] eqn:E; [|reflexivity].
      destruct s as [ms i lo]. unfold AgentChat.setMessages. simpl.
      rewrite (apply_unknown d ms); [reflexivity|].
      destruct (Hparse l d (Hsub l (or_introl eq_refl)) E) as (H1 & H2 & H3).
      unfold strict_eq. destruct (ChatPage.data_type d) as [t|]; [|repeat split].
      repeat split; apply String.eqb_neq; congruence. }
    rewrite G; [reflexivity|]. intros l Hl. exact Hl.
  - intros ds Hds. induction Hds as [|d ds Hd _ IH]; intros prev; [reflexivity|].
    simpl. rewrite apply_unknown; [apply IH|].
    destruct Hd as [-> |[-> | ->]]; repeat split.
Qed.

Lemma apply_data_keeps_prefix (base : list rmessage)
    (d : ChatPage.data point) (prev : list rmessage) :
  AgentChat.status_last base = false ->
  (exists tail, prev = base ++ tail
                /\ Forall (fun m => AgentChat.role m <> "user") tail) ->
  exists tail, AgentChat.apply_data d prev = base ++ tail
               /\ Forall (fun m => AgentChat.role m <> "user") tail.
Proof.
  intros Hbase (tail & -> & Hall).
  assert (Hsnoc : forall x : rmessage,
             AgentChat.role x <> "user" ->
             exists tail', (base ++ tail) ++ [x] = base ++ tail'
                           /\ Forall (fun m => AgentChat.role m <> "user") tail').
  { intros x Hx. exists (tail ++ [x]). split; [now rewrite app_assoc|].
    apply Forall_app. split; [assumption|now constructor]. }
  unfold AgentChat.apply_data, AgentChat.processStreamData.
  destruct (strict_eq (ChatPage.data_type d) "answer").
  { apply Hsnoc. discriminate. }
  destruct (strict_eq (ChatPage.data_type d) "status").
  { destruct tail as [|m tail _] using rev_ind.
    - rewrite app_nil_r in *. unfold AgentChat.status_last, AgentChat.is_status in Hbase.
      destruct (Js.last_elem base) as [m|].
      + rewrite Hbase.
        destruct (Hsnoc (AgentChat.mkMessage "system" (ChatPage.data_content d)
                           None None (Some true))) as (t & Ht & Hf); [discriminate|].
        rewrite ?app_nil_r in Ht. now exists t.
      + destruct (Hsnoc (AgentChat.mkMessage "system" (ChatPage.data_content d)
                           None None (Some true))) as (t & Ht & Hf); [discriminate|].
        rewrite ?app_nil_r in Ht. now exists t.
    - apply Forall_app in Hall. destruct Hall as [Ht Hm].
      inversion Hm as [|? ? Hrole _]; subst.
      rewrite (app_assoc base tail [m]), last_elem_snoc, slice_init_snoc.
      destruct (truthy_flag (AgentChat.isStatus m)).
      + exists (tail ++ [AgentChat.mkMessage (AgentChat.role m) (ChatPage.data_content d)
                           (AgentChat.chart_data m) (AgentChat.chart_type m)
                           (AgentChat.isStatus m)]).
        split; [now rewrite app_assoc|].
        apply Forall_app. split; [assumption|now constructor].
      + rewrite <- (app_assoc base tail [m]). apply Hsnoc. discriminate. }
  destruct (strict_eq (ChatPage.data_type d) "error").
  { apply Hsnoc. discriminate. }
  now exists tail.
Qed.

(** A submission of the widget appends the user's question once and,
    behind it, only replies, status bubbles and notices: it never rewrites
    what was displayed and adds no other message in the user's name. The
    input box ends empty and the loading flag false. When the request is
    rejected the single message behind the question is the apology. *)
Theorem widget_submission_appends_question_then_replies
    (s : AgentChat.stream) (st : rstate) :
  Js.blank (AgentChat.input st) = false ->
  let final := rsubmit s st in
  let question := AgentChat.mkMessage "user" (AgentChat.input st) None None None in
  AgentChat.input final = ""
  /\ AgentChat.loading final = false
  /\ (exists replies,
        AgentChat.messages final = AgentChat.messages st ++ question :: replies
        /\ Forall (fun m => AgentChat.role m <> "user") replies)
  /\ (s = AgentChat.FetchRejected ->
      AgentChat.messages final
      = AgentChat.messages st
        ++ [question;
            AgentChat.mkMessage "agent" "Sorry, I couldn't process that request."
              None None None]).
Proof.
  intros Hin final question.
  set (start := AgentChat.begin_submit st).
  set (base := AgentChat.messages st ++ [question]).
  assert (Hfinal : final
                   = AgentChat.setLoading false
                       (AgentChat.run_stream JSON_parse decode new_TextDecoder s start)).
  { unfold final, AgentChat.handleSubmit. now rewrite Hin. }
  assert (Hbase : AgentChat.status_last base = false).
  { unfold base, AgentChat.status_last. now rewrite last_elem_snoc. }
  set (Inv := fun x : rstate =>
                AgentChat.input x = ""
                /\ exists tail, AgentChat.messages x = base ++ tail
                                /\ Forall (fun m => AgentChat.role m <> "user") tail).
  assert (Hline : forall line x, Inv x -> Inv (rprocess line x)).
  { intros line x [Hi Hx]. unfold AgentChat.process_line.
    destruct (Js.is_empty (Js.trim line)); [now split|].
    destruct (JSON_parse (Js.trim line)) as [d|]; [|now split].
    split; [exact Hi|]. simpl. now apply apply_data_keeps_prefix. }
  assert (Hstart : Inv start).
  { split; [reflexivity|]. exists []. split; [|constructor].
    unfold base, start. simpl. now rewrite app_nil_r. }
  assert (Hloop : forall chunks,
             Inv (current (read_loop decode rprocess chunks
                             (mkReading new_TextDecoder EmptyString start)))).
  { intros chunks. now apply (read_loop_invariant decode rprocess Inv). }
  assert (Herr : forall x, Inv x -> Inv (AgentChat.on_error x)).
  { intros x [Hi (tail & Hx & Hall)]. split; [exact Hi|].
    exists (tail ++ [AgentChat.mkMessage "agent" "Sorry, I couldn't process that request."
                       None None None]).
    simpl. rewrite Hx, app_assoc. split; [reflexivity|].
    apply Forall_app. split; [assumption|]. constructor; [discriminate|constructor]. }
  assert (Hrun : Inv (AgentChat.run_stream JSON_parse decode new_TextDecoder s start)).
  { destruct s as [|chunks broken]; simpl AgentChat.run_stream.
    - now apply Herr.
    - destruct broken; [apply Herr, Hloop|].
      change (AgentChat.read_body JSON_parse decode new_TextDecoder chunks start)
        with (rprocess
                (buffer (read_loop decode rprocess chunks
                           (mkReading new_TextDecoder EmptyString start)))
                (current (read_loop decode rprocess chunks
                            (mkReading new_TextDecoder EmptyString start)))).
      apply Hline, Hloop. }
  destruct Hrun as [Hi (tail & Hm & Hall)].
  rewrite Hfinal. simpl.
  split; [exact Hi|]. split; [reflexivity|]. split.
  - exists tail. rewrite Hm. unfold base. rewrite <- app_assoc. now split.
  - intros ->. simpl. now rewrite <- app_assoc.
Qed.

End WidgetReplies.

(** ** The further properties on the sample inputs *)

Example widget_reads_legacy_body :
  AgentChat.messages
    (AgentChat.handleSubmit Samples.parse Samples.decode tt
       (AgentChat.Body Samples.legacy_body false) Samples.widget_typed)
  = [AgentChat.greeting;
     AgentChat.mkMessage "user" "status of M1?" None None None;
     AgentChat.mkMessage "system" "running SQL" None None (Some true);
     AgentChat.mkMessage "agent" "All machines nominal" (Some [1; 2])
       (Some "forecast") None].
Proof. reflexivity. Qed.

Example page_drops_legacy_answer :
  ChatPage.messages
    (ChatPage.handleSubmit Samples.parse Samples.decode tt
       (ChatPage.mkNetwork Rejected (ChatPage.Body Samples.legacy_body false) Rejected)
       Samples.typed)
  = [ChatPage.greeting; ChatPage.mkMessage "user" "status of M1?" None None].
Proof. reflexivity. Qed.

Example wide_row_columns :
  SensorChart.detectValueKey None (Some [Samples.wide_row]) = "pressure"
  /\ SensorChart.detectTimestampKey (Some [Samples.wide_row]) = "recorded_time"
  /\ SensorChart.detectValueKey (Some "vibration") (Some [Samples.wide_row]) = "vibration"
  /\ SensorChart.detectValueKey None None = "value".
Proof. repeat split. Qed.

Example trim_samples :
  Js.trim ("  a b " ++ Samples.nl) = "a b" /\ Js.trim "   " = "" /\ Js.trim "x" = "x".
Proof. repeat split. Qed.

Lemma unterminated_line_is_dropped_witness :
  ChatPage.run_stream Samples.parse Samples.decode tt
    (ChatPage.Body [Samples.bytes ("THel" ++ Samples.nl); Samples.bytes "Tlo"] false)
    Samples.typed
  = ChatPage.run_stream Samples.parse Samples.decode tt
      (ChatPage.Body [Samples.bytes ("THel" ++ Samples.nl)] false) Samples.typed.
Proof.
  refine (proj1 (proj2
            (unterminated_line_is_dropped Samples.parse Samples.decode tt
               [Samples.bytes ("THel" ++ Samples.nl)]
               [Samples.bytes ("THel" ++ Samples.nl); Samples.bytes "Tlo"]
               "Tlo" Samples.typed _ _))); reflexivity.
Defined.

Lemma submission_appends_question_then_replies_witness :
  ChatPage.input
    (ChatPage.handleSubmit Samples.parse Samples.decode tt
       (ChatPage.mkNetwork Rejected (ChatPage.Body Samples.body1 false) Rejected)
       Samples.typed) = "".
Proof.
  refine (proj1
            (submission_appends_question_then_replies Samples.parse Samples.decode tt
               (ChatPage.mkNetwork Rejected (ChatPage.Body Samples.body1 false) Rejected)
               Samples.typed _)).
  reflexivity.
Defined.

Lemma submission_keeps_active_thread_witness :
  ChatPage.activeThreadId
    (ChatPage.handleSubmit Samples.parse Samples.decode tt
       (ChatPage.mkNetwork (Resolved Samples.newest)
          (ChatPage.Body Samples.body1 false) (Resolved None))
       Samples.with_threads) = Some "t2".
Proof.
  refine (proj1 (proj1
            (submission_keeps_active_thread Samples.parse Samples.decode tt
               (ChatPage.mkNetwork (Resolved Samples.newest)
                  (ChatPage.Body Samples.body1 false) (Resolved None))
               Samples.with_threads _) _)); reflexivity.
Defined.

Lemma active_thread_stays_listed_witness :
  ChatPage.active_listed
    (ChatPage.deleteThread "t2" (Resolved tt) (Resolved (Some []))
       Samples.with_threads).
Proof.
  refine (proj1 (proj2 (proj2 (proj2
            (active_thread_stays_listed Samples.parse Samples.decode tt
               Samples.with_threads _)))) "t2" (Resolved tt) (Resolved (Some [])) _).
  - compute. left. reflexivity.
  - right. discriminate.
Defined.

Lemma deleted_thread_stays_active_when_load_fails_witness :
  ChatPage.activeThreadId
    (ChatPage.deleteThread "t2" (Resolved tt) Rejected Samples.with_threads)
  = Some "t2".
Proof.
  refine (proj1
            (deleted_thread_stays_active_when_load_fails "t2" Samples.older
               Samples.with_threads _ _ _)).
  - reflexivity.
  - compute. right. left. reflexivity.
  - discriminate.
Defined.

Lemma widget_reads_unterminated_line_witness :
  AgentChat.read_body Samples.parse Samples.decode tt
    [Samples.bytes ("Srouting" ++ Samples.nl ++ "Srunning SQL" ++ Samples.nl);
     Samples.bytes ("AAll machines nominal" ++ Samples.nl)]
    Samples.widget_typed
  = AgentChat.read_body Samples.parse Samples.decode tt Samples.legacy_body
      Samples.widget_typed.
Proof.
  refine (proj1 (proj2
            (widget_reads_unterminated_line Samples.parse Samples.decode tt
               Samples.legacy_body
               [Samples.bytes ("Srouting" ++ Samples.nl ++ "Srunning SQL" ++ Samples.nl);
                Samples.bytes ("AAll machines nominal" ++ Samples.nl)]
               Samples.legacy_body Samples.widget_typed _ _))); reflexivity.
Defined.

Lemma widget_status_run_is_one_bubble_witness :
  AgentChat.for_data
    [ChatPage.mkData (Some "status") "routing" None None;
     ChatPage.mkData (Some "status") "running SQL" None None]
    [AgentChat.greeting (point := nat)]
  = [AgentChat.greeting;
     AgentChat.mkMessage "system" "running SQL" None None (Some true)].
Proof.
  refine (proj1
            (widget_status_run_is_one_bubble
               [ChatPage.mkData (Some "status") "routing" None None]
               (ChatPage.mkData (Some "status") "running SQL" None None)
               [AgentChat.greeting (point := nat)] _) _).
  - repeat constructor.
  - reflexivity.
Defined.

Lemma widget_never_stacks_status_witness :
  AgentChat.stacked_status
    (AgentChat.messages
       (AgentChat.handleSubmit Samples.parse Samples.decode tt
          (AgentChat.Body Samples.legacy_body true) Samples.widget_typed)) = false.
Proof.
  refine (proj1
            (widget_never_stacks_status Samples.parse Samples.decode tt
               (AgentChat.Body Samples.legacy_body true) Samples.widget_typed _)).
  reflexivity.
Defined.

Lemma widget_history_skips_status_witness :
  In (AgentChat.mkTurn "assistant" "All machines nominal")
     (AgentChat.history
        [AgentChat.mkMessage (point := nat) "user" "status of M1?" None None None;
         AgentChat.mkMessage "system" "running SQL" None None (Some true);
         AgentChat.mkMessage "agent" "All machines nominal" None None None]).
Proof.
  refine (proj1 (proj2 (proj2
            (widget_history_skips_status
               [AgentChat.mkMessage (point := nat) "user" "status of M1?" None None None;
                AgentChat.mkMessage "system" "running SQL" None None (Some true);
                AgentChat.mkMessage "agent" "All machines nominal" None None None])))
            (AgentChat.mkMessage "agent" "All machines nominal" None None None) _ _).
  - simpl. tauto.
  - reflexivity.
Defined.

Lemma card_status_follows_metrics_witness :
  MachineCard.loading
    (MachineCard.polls
       [Resolved [MachineCard.mkMetric (MachineCard.Finite (11 # 10))];
        Rejected; Resolved []]
       MachineCard.initial) = false.
Proof.
  refine (proj2 (proj2 (proj2 (proj2
            (card_status_follows_metrics
               [Resolved [MachineCard.mkMetric (MachineCard.Finite (11 # 10))];
                Rejected; Resolved []])))) _).
  discriminate.
Defined.

Lemma value_key_is_first_numeric_column_witness :
  SensorChart.detectValueKey None (Some [Samples.wide_row]) = "pressure".
Proof.
  refine (proj1 (proj2 (proj2
            (proj2 (value_key_is_first_numeric_column None (Some [Samples.wide_row]))
               _)))
            Samples.wide_row [] ["Machine_ID"; "recorded_time"] "pressure" ["vibration"]
            _ _ _ _).
  - now left.
  - reflexivity.
  - reflexivity.
  - intros x [<-|[<-|[]]]; reflexivity.
  - reflexivity.
Defined.

Lemma card_rows_plot_value_by_timestamp_witness :
  SensorChart.detectTimestampKey (Some (map SensorChart.point_row Samples.card_points))
  = "timestamp".
Proof.
  exact (proj1 (proj2
           (card_rows_plot_value_by_timestamp (fun _ => "10:00:00")
              Samples.card_points (Some "Vibration") "#38bdf8"))).
Defined.

Lemma startup_opens_chat_only_with_valid_token_witness :
  Auth.settle
    (Auth.token_effect (Resolved (Auth.mkUser "ana" (Some "admin")))
       (Auth.initial (Some "tok")))
    Auth.ChatRoute
  = Auth.Page Auth.ChatRoute.
Proof.
  refine (proj2 (proj1 (proj2 (proj2
            (startup_opens_chat_only_with_valid_token (Some "tok")
               (Resolved (Auth.mkUser "ana" (Some "admin"))) Auth.ChatRoute)))) _).
  split; [reflexivity|]. now exists (Auth.mkUser "ana" (Some "admin")).
Defined.

Lemma widget_shows_nothing_for_token_stream_witness :
  AgentChat.messages
    (AgentChat.handleSubmit Samples.parse Samples.decode tt
       (AgentChat.Body Samples.body1 false) Samples.widget_typed)
  = [AgentChat.greeting; AgentChat.mkMessage "user" "status of M1?" None None None].
Proof.
  refine (proj1
            (widget_shows_nothing_for_token_stream Samples.parse
               Samples.decode tt Samples.body1 Samples.widget_typed _ _)).
  - reflexivity.
  - intros line d Hline. vm_compute in Hline.
    destruct Hline as [<-|[<-|[<-|[<-|[]]]]]; intros E; vm_compute in E;
      try discriminate E; injection E as <-; repeat split; discriminate.
Defined.

Lemma widget_submission_appends_question_then_replies_witness :
  AgentChat.messages
    (AgentChat.handleSubmit Samples.parse Samples.decode tt AgentChat.FetchRejected
       Samples.widget_typed)
  = [AgentChat.greeting;
     AgentChat.mkMessage "user" "status of M1?" None None None;
     AgentChat.mkMessage "agent" "Sorry, I couldn't process that request."
       None None None].
Proof.
  refine (proj2 (proj2 (proj2
            (widget_submission_appends_question_then_replies Samples.parse
               Samples.decode tt AgentChat.FetchRejected Samples.widget_typed _))) _);
    reflexivity.
Defined.

(** ** The knowledge base modal *)

Section KnowledgeBaseFacts.

Import KnowledgeBase.
Context {file_t vector_t : Type}.

Abbreviation kstate := (KnowledgeBase.state file_t vector_t).
Abbreviation kaction := (KnowledgeBase.action file_t vector_t).

(** An upload never stays pending and is never sent twice. Whatever the
    requests return, the [uploading] flag ends false. A successful upload
    clears the picked file, so that a second call without a new pick does
    nothing; a failed upload keeps the file and the document list, and
    a second call sends it again. Without a file nothing happens. *)
Theorem upload_is_sent_once
    (f : file_t) (docs docs2 : response (list string)) (upload2 : response unit)
    (st : kstate) :
  file st = Some f ->
  let ok := handleUpload (Resolved tt) docs st in
  let ko := handleUpload Rejected docs st in
  (uploading ok = false /\ uploading ko = false)
  /\ (file ok = None /\ message ok = "Upload successful!"
      /\ handleUpload upload2 docs2 ok = ok)
  /\ (file ko = Some f /\ message ko = "Upload failed."
      /\ documents ko = documents st
      /\ handleUpload (Resolved tt) docs2 ko = handleUpload (Resolved tt) docs2 st)
  /\ (forall st0 : kstate, file st0 = None -> handleUpload upload2 docs2 st0 = st0).
Proof.
  intros Hf ok ko. unfold ok, ko, handleUpload. rewrite Hf.
  split; [now split|]. split; [|split].
  - destruct docs; simpl; repeat split.
  - simpl. rewrite Hf. repeat split.
  - intros st0 H0. now rewrite H0.
Qed.

Lemma act_keeps_view_closed (st : kstate) (a : kaction) :
  showVectors st = false /\ vectors st = [] /\ uploading st = false ->
  showVectors (act st a) = false /\ vectors (act st a) = []
  /\ uploading (act st a) = false.
Proof.
  intros (Hs & Hv & Hu). destruct a as [picked|upload docs|filename confirmed del docs vecs];
    simpl.
  - now repeat split.
  - unfold handleUpload. destruct (file st); [|now repeat split].
    destruct upload; [now repeat split|]. destruct docs; now repeat split.
  - unfold handleDelete. destruct confirmed; simpl; [|now repeat split].
    destruct del; [now repeat split|].
    rewrite Hs. destruct docs; now repeat split.
Qed.

(** The vector view never opens by itself: as long as the user has not
    asked to inspect the vectors, no sequence of picks, uploads and
    deletions, whatever the requests return, shows the vector view or
    loads any vector; and the upload button is never left in the uploading
    state. *)
Theorem vector_view_opens_on_request_only (acts : list kaction) :
  let st := session acts (initial (file_t := file_t) (vector_t := vector_t)) in
  showVectors st = false /\ vectors st = [] /\ uploading st = false.
Proof.
  intros st. unfold st, session.
  assert (G : forall (l : list kaction) (s : kstate),
             showVectors s = false /\ vectors s = [] /\ uploading s = false ->
             showVectors (fold_left act l s) = false
             /\ vectors (fold_left act l s) = []
             /\ uploading (fold_left act l s) = false).
  { induction l as [|a l IH]; intros s Hs; [exact Hs|].
    simpl. apply IH. now apply act_keeps_view_closed. }
  apply G. now repeat split.
Qed.

End KnowledgeBaseFacts.

Lemma upload_is_sent_once_witness :
  KnowledgeBase.uploading
    (KnowledgeBase.handleUpload (Resolved tt) (Resolved ["manual.pdf"])
       (KnowledgeBase.handleFileChange (Some 1)
          (KnowledgeBase.initial (file_t := nat) (vector_t := nat)))) = false.
Proof.
  refine (proj1 (proj1
            (upload_is_sent_once 1 (Resolved ["manual.pdf"]) Rejected Rejected
               (KnowledgeBase.handleFileChange (Some 1)
                  (KnowledgeBase.initial (file_t := nat) (vector_t := nat))) _))).
  reflexivity.
Defined.
